(** * Movement detector: the per-frame pipeline of [src/main.py]

    A shallow embedding of [MovementDetector] ([get_heat_color], [draw_box],
    [process_frame]) and the properties of its tracker, heat colours, boxes
    and proximity lines.

    What OpenCV computes from pixels (background subtraction, morphology,
    contour extraction) enters as data: a frame is its [shape] and the list
    of contours [cv2.findContours] returned for it, each with the values of
    [cv2.contourArea] and [cv2.boundingRect].  What OpenCV writes into the
    frame leaves as data: the list of calls that mutate the frame, in the
    order the code issues them.

    Numbers are the program's own: Python integers are [Z], Python and NumPy
    floats are binary64 [float]s with the IEEE operations of the kernel, and
    [int(...)] of a float truncates toward zero and raises on NaN and on the
    infinities.  An exception is [None].

    Of [VideoProcessor] the development embeds the names of the output files
    ([get_next_output_path], with the existing paths as a set) and the loop
    of [run] over the frames, with the capture as the list of frames it
    still returns. *)

From Stdlib Require Import ZArith Floats Lia Ascii.
From stdpp Require Import gmap strings list fin_maps option.
From stdpp Require pretty.

Local Open Scope Z_scope.

(** ** Python numbers *)

Module Py.

(** [float(z)] for an integer [z]: the nearest binary64 value, ties to
    even.  Every integer below 2^53 in magnitude converts exactly. *)
Definition float_of_int (z : Z) : float :=
  SF2Prim (binary_normalize prec emax z 0 false).

(** [int(f)]: truncation toward zero; [ValueError] on NaN and
    [OverflowError] on an infinity, both [None] here. *)
Definition int (f : float) : option Z :=
  match Prim2SF f with
  | S754_zero _ => Some 0
  | S754_finite s m e =>
      let v := Z.shiftl (Z.pos m) e in
      Some (if s then - v else v)
  | S754_infinity _ | S754_nan => None
  end.

(** The built-ins [max(a, b)] and [min(a, b)]: the first argument is kept
    unless the second compares strictly greater (smaller). *)
Definition max (a b : float) : float := if (a <? b)%float then b else a.
Definition min (a b : float) : float := if (b <? a)%float then b else a.

(** [range(0, stop, step)] for a positive [step]. *)
Definition range (stop step : Z) : list Z :=
  (fun k => Z.of_nat k * step) <$> seq 0 (Z.to_nat ((stop + step - 1) / step)).

(** [np.sqrt(n)] of a Python integer: the integer is converted to
    float64, then the correctly rounded square root is taken. *)
Definition np_sqrt (n : Z) : float := PrimFloat.sqrt (float_of_int n).

End Py.

(** ** Data *)

(** A colour is a tuple of three integers in blue, green, red order. *)
Definition Color : Type := Z * Z * Z.
Definition Point : Type := Z * Z.

(** The keys of the settings dictionary that [process_frame] and
    [draw_box] read, and [show_box], which the window sets. *)
Record Settings := {
  line_distance : Z;
  show_lines : bool;
  negative_effect : bool;
  negative_intensity : Z;
  line_color : Color;
  heat_map : bool;
  heat_intensity : Z;
  edge_detection : bool;
  edge_intensity : Z;
  edge_color : Color;
  box_thickness : Z;
  box_style : string;
  box_corners : bool;
  box_padding : Z;
  font_size : float;
  min_area : Z;
  font_color : Color;
  show_box : bool;
  connection_point : string
}.

(** The dictionary built in [MainWindow.__init__]. *)
Definition default_settings : Settings := {|
  line_distance := 200;
  show_lines := true;
  negative_effect := true;
  negative_intensity := 100;
  line_color := (255, 192, 203);
  heat_map := true;
  heat_intensity := 50;
  edge_detection := true;
  edge_intensity := 50;
  edge_color := (255, 255, 170);
  box_thickness := 2;
  box_style := "solid";
  box_corners := false;
  box_padding := 0;
  font_size := 0x1.ccccccccccccdp-1%float; (* 0.9 *)
  min_area := 500;
  font_color := (0, 0, 0);
  show_box := true;
  connection_point := "center"
|}.

(** [settings['show_box'] = b], as [toggle_show_box] does. *)
Definition set_show_box (b : bool) (s : Settings) : Settings := {|
  line_distance := line_distance s;
  show_lines := show_lines s;
  negative_effect := negative_effect s;
  negative_intensity := negative_intensity s;
  line_color := line_color s;
  heat_map := heat_map s;
  heat_intensity := heat_intensity s;
  edge_detection := edge_detection s;
  edge_intensity := edge_intensity s;
  edge_color := edge_color s;
  box_thickness := box_thickness s;
  box_style := box_style s;
  box_corners := box_corners s;
  box_padding := box_padding s;
  font_size := font_size s;
  min_area := min_area s;
  font_color := font_color s;
  show_box := b;
  connection_point := connection_point s
|}.

(** One contour of [cv2.findContours], by what the code asks of it. *)
Record Contour := {
  contourArea : float;
  boundingRect : Z * Z * Z * Z
}.

(** The overlays blended into a region of interest, with their alpha. *)
Inductive Effect :=
| Negative (alpha : float)
| Heat (heat_color : Color) (alpha : float)
| Edge (color : Color) (alpha : float).

(** The label [f'{int(area)}'], extended by [f' | {int(speed)}px/f'] when
    the speed is positive: kept as the one or two integers it prints. *)
Record InfoText := {
  text_area : Z;
  text_speed : option Z
}.

(** The calls that write into the frame. *)
Inductive FrameOp :=
| WriteRoi (x y w h : Z) (effects : list Effect)
| Rectangle (pt1 pt2 : Point) (color : Color) (thickness : Z)
| Line (pt1 pt2 : Point) (color : Color) (thickness : Z)
| Circle (center : Point) (radius : Z) (color : Color)
| PutText (text : InfoText) (org : Point) (scale : float) (color : Color).

(** An entry of [boxes] and an entry of [frame_data]. *)
Record Box := {
  box_center : Point;
  box_connection_point : Point;
  box_area : float
}.

Record Detection := {
  det_area : Z;
  det_position : Z * Z * Z * Z;
  det_speed : float;
  det_direction : string
}.

(** The fields of a [MovementDetector] besides the background subtractor. *)
Record MovementDetector := {
  prev_centers : gmap Point Point;
  next_id : Z
}.

(** [MovementDetector.__init__]. *)
Definition init : MovementDetector := {| prev_centers := ∅; next_id := 0 |}.

(** ** [get_heat_color] *)

(** The colour tuple, or [None] where an [int(...)] raises. *)
Definition get_heat_color (speed max_speed : float) : option Color :=
  if (max_speed =? 0)%float then Some (255, 0, 0)
  else
    let ratio := Py.min (speed / max_speed)%float 1%float in
    if (ratio <? 0.25)%float then
      g ← Py.int (255 * ratio * 4)%float;
      Some (255, g, 0)
    else if (ratio <? 0.5)%float then
      b ← Py.int (255 * (ratio - 0.25) * 4)%float;
      Some (255 - b, 255, 0)
    else if (ratio <? 0.75)%float then
      g ← Py.int (255 * (ratio - 0.5) * 4)%float;
      r ← Py.int (255 * (ratio - 0.5) * 4)%float;
      Some (0, 255 - g, r)
    else
      g ← Py.int (255 * (1 - ratio) * 4)%float;
      Some (0, g, 255).

(** ** [draw_box] *)

(** The first four assignments of [draw_box]: pad, then clamp against
    [frame.shape], which is (height, width). *)
Definition padded_box (shape : Z * Z) (x y w h : Z) (settings : Settings)
  : Z * Z * Z * Z :=
  let padding := box_padding settings in
  let x := Z.max 0 (x - padding) in
  let y := Z.max 0 (y - padding) in
  let w := Z.min (snd shape - x) (w + 2 * padding) in
  let h := Z.min (fst shape - y) (h + 2 * padding) in
  (x, y, w, h).

(** The drawing calls of [draw_box], in order.  Its parameters [speed] and
    [max_speed] are not read by the body and are left out. *)
Definition draw_box (shape : Z * Z) (x y w h : Z) (color : Color)
    (settings : Settings) : list FrameOp :=
  let '(x, y, w, h) := padded_box shape x y w h settings in
  let thickness := box_thickness settings in
  let outline :=
    if String.eqb (box_style settings) "solid" then
      [Rectangle (x, y) (x + w, y + h) color thickness]
    else if String.eqb (box_style settings) "dashed" then
      let dash_length := 10 in
      (i ← Py.range w (dash_length * 2);
         [Line (x + i, y) (x + Z.min (i + dash_length) w, y) color thickness;
          Line (x + i, y + h) (x + Z.min (i + dash_length) w, y + h) color thickness])
      ++
      (i ← Py.range h (dash_length * 2);
         [Line (x, y + i) (x, y + Z.min (i + dash_length) h) color thickness;
          Line (x + w, y + i) (x + w, y + Z.min (i + dash_length) h) color thickness])
    else if String.eqb (box_style settings) "dotted" then
      let dot_spacing := 10 in
      (i ← Py.range w dot_spacing;
         [Circle (x + i, y) (thickness / 2) color;
          Circle (x + i, y + h) (thickness / 2) color])
      ++
      (i ← Py.range h dot_spacing;
         [Circle (x, y + i) (thickness / 2) color;
          Circle (x + w, y + i) (thickness / 2) color])
    else [] in
  let corners :=
    if box_corners settings then
      let corner_length := Z.min w h / 4 in
      [Line (x, y + corner_length) (x, y) color thickness;
       Line (x, y) (x + corner_length, y) color thickness;
       Line (x + w - corner_length, y) (x + w, y) color thickness;
       Line (x + w, y) (x + w, y + corner_length) color thickness;
       Line (x, y + h - corner_length) (x, y + h) color thickness;
       Line (x, y + h) (x + corner_length, y + h) color thickness;
       Line (x + w - corner_length, y + h) (x + w, y + h) color thickness;
       Line (x + w, y + h - corner_length) (x + w, y + h) color thickness]
    else [] in
  outline ++ corners.

(** ** [process_frame] *)

(** [area > settings['min_area']], the area a float and the threshold an
    integer, which converts exactly below 2^53. *)
Definition retained (settings : Settings) (contour : Contour) : bool :=
  (Py.float_of_int (min_area settings) <? contourArea contour)%float.

(** [center = (x + w//2, y + h//2)]. *)
Definition center_of (contour : Contour) : Point :=
  let '(x, y, w, h) := boundingRect contour in (x + w / 2, y + h / 2).

(** [np.sqrt(dx*dx + dy*dy)] for [center] against [prev_center]. *)
Definition speed_between (center prev_center : Point) : float :=
  let dx := fst center - fst prev_center in
  let dy := snd center - snd prev_center in
  Py.np_sqrt (dx * dx + dy * dy).

(** The conditional of lines 246 to 249. *)
Definition direction_of (dx dy : Z) : string :=
  if Z.abs dy <? Z.abs dx then
    if 0 <? dx then "Right" else "Left"
  else
    if 0 <? dy then "Down" else "Up".

(** The first pass: the largest speed among the retained contours whose
    centre is a key of [prev_centers], from [max_speed = 0]. *)
Definition first_pass (prev : gmap Point Point) (settings : Settings)
    (contours : list Contour) : float :=
  fold_left
    (fun max_speed contour =>
       if retained settings contour then
         let center := center_of contour in
         match prev !! center with
         | Some prev_center => Py.max max_speed (speed_between center prev_center)
         | None => max_speed
         end
       else max_speed)
    contours 0%float.

(** Speed and direction of one blob in the second pass (lines 238 to 249).
    The initial [speed = 0] is the float 0.0: the code only compares it,
    divides it and converts it with [float] and [int]. *)
Definition motion (prev : gmap Point Point) (center : Point) : float * string :=
  match prev !! center with
  | Some prev_center =>
      let dx := fst center - fst prev_center in
      let dy := snd center - snd prev_center in
      (speed_between center prev_center, direction_of dx dy)
  | None => (0%float, "N/A")
  end.

(** What the second pass has accumulated so far. *)
Record Pass := {
  ops : list FrameOp;
  boxes : list Box;
  frame_data : list Detection;
  current_centers : gmap Point Point
}.

(** The empty lists and dictionary of lines 212 to 214. *)
Definition pass_start : Pass :=
  {| ops := []; boxes := []; frame_data := []; current_centers := ∅ |}.

(** The body of the second loop for a retained contour. *)
Definition process_contour (prev : gmap Point Point) (shape : Z * Z)
    (color : Color) (settings : Settings) (max_speed : float)
    (contour : Contour) (acc : Pass) : option Pass :=
  let area := contourArea contour in
  let '(x, y, w, h) := boundingRect contour in
  let center := (x + w / 2, y + h / 2) in
  let '(speed, direction) := motion prev center in
  let negative :=
    if negative_effect settings then
      [Negative (Py.float_of_int (negative_intensity settings) / 100)%float]
    else [] in
  heat ←
    (if heat_map settings then
       heat_color ← get_heat_color speed max_speed;
       Some [Heat heat_color (Py.float_of_int (heat_intensity settings) / 100)%float]
     else Some []);
  let edge :=
    if edge_detection settings then
      [Edge (edge_color settings)
         (Py.float_of_int (edge_intensity settings) / 100)%float]
    else [] in
  box_color ←
    (if heat_map settings then get_heat_color speed max_speed else Some color);
  let box := draw_box shape x y w h box_color settings in
  text_a ← Py.int area;
  text_s ← (if (0 <? speed)%float then Some <$> Py.int speed else Some None);
  let label :=
    PutText {| text_area := text_a; text_speed := text_s |} (x, y - 10)
      (font_size settings) (font_color settings) in
  let connection :=
    if String.eqb (connection_point settings) "center" then center else (x, y) in
  data_area ← Py.int area;
  Some {|
    ops := ops acc ++ WriteRoi x y w h (negative ++ heat ++ edge) :: box ++ [label];
    boxes := boxes acc ++
      [{| box_center := center; box_connection_point := connection; box_area := area |}];
    frame_data := frame_data acc ++
      [{| det_area := data_area; det_position := (x, y, w, h);
          det_speed := speed; det_direction := direction |}];
    current_centers := <[center := center]> (current_centers acc)
  |}.

(** The second loop. *)
Fixpoint second_pass (prev : gmap Point Point) (shape : Z * Z) (color : Color)
    (settings : Settings) (max_speed : float) (contours : list Contour)
    (acc : Pass) : option Pass :=
  match contours with
  | [] => Some acc
  | contour :: rest =>
      if retained settings contour then
        acc' ← process_contour prev shape color settings max_speed contour acc;
        second_pass prev shape color settings max_speed rest acc'
      else second_pass prev shape color settings max_speed rest acc
  end.

(** [np.sqrt((point1[0] - point2[0])**2 + (point1[1] - point2[1])**2)]. *)
Definition distance (point1 point2 : Point) : float :=
  Py.np_sqrt ((fst point1 - fst point2) ^ 2 + (snd point1 - snd point2) ^ 2).

(** [int(255 * (1 - distance/settings['line_distance']))]. *)
Definition line_intensity (settings : Settings) (d : float) : option Z :=
  Py.int (255 * (1 - d / Py.float_of_int (line_distance settings)))%float.

(** [int(channel * intensity/255)]. *)
Definition scale_channel (channel intensity : Z) : option Z :=
  Py.int (Py.float_of_int (channel * intensity) / 255)%float.

(** The tuple [line_color] of lines 318 to 322. *)
Definition scaled_line_color (settings : Settings) (intensity : Z) : option Color :=
  let '(c0, c1, c2) := line_color settings in
  b ← scale_channel c0 intensity;
  g ← scale_channel c1 intensity;
  r ← scale_channel c2 intensity;
  Some (b, g, r).

(** The body of the inner loop over [boxes[i+1:]]; NumPy converts the
    integer [line_distance] to float64 for the comparison and the division. *)
Definition link (settings : Settings) (box1 box2 : Box) : option (list FrameOp) :=
  let point1 := box_connection_point box1 in
  let point2 := box_connection_point box2 in
  let d := distance point1 point2 in
  if (d <? Py.float_of_int (line_distance settings))%float then
    intensity ← line_intensity settings d;
    color ← scaled_line_color settings intensity;
    Some [Line point1 point2 color 2]
  else Some [].

(** The inner loop, [others] being [boxes[i+1:]]. *)
Fixpoint links_from (settings : Settings) (box1 : Box) (others : list Box)
  : option (list FrameOp) :=
  match others with
  | [] => Some []
  | box2 :: rest =>
      l ← link settings box1 box2;
      ls ← links_from settings box1 rest;
      Some (l ++ ls)
  end.

(** The double loop of lines 310 to 323. *)
Fixpoint proximity_lines (settings : Settings) (boxes : list Box)
  : option (list FrameOp) :=
  match boxes with
  | [] => Some []
  | box1 :: rest =>
      l ← links_from settings box1 rest;
      ls ← proximity_lines settings rest;
      Some (l ++ ls)
  end.

(** [process_frame(self, frame, color, settings)]: the new detector
    state, the writes into the frame and [frame_data]. *)
Definition process_frame (self : MovementDetector) (shape : Z * Z)
    (contours : list Contour) (color : Color) (settings : Settings)
  : option (MovementDetector * list FrameOp * list Detection) :=
  let max_speed := first_pass (prev_centers self) settings contours in
  acc ← second_pass (prev_centers self) shape color settings max_speed
           contours pass_start;
  lines ←
    (if show_lines settings then proximity_lines settings (boxes acc)
     else Some []);
  Some ({| prev_centers := current_centers acc; next_id := next_id self |},
        ops acc ++ lines, frame_data acc).

(** ** Vocabulary of the properties *)

(** The entries one retained contour adds to [boxes] and [frame_data]. *)
Definition box_of (settings : Settings) (contour : Contour) : Box :=
  let '(x, y, w, h) := boundingRect contour in
  {| box_center := center_of contour;
     box_connection_point :=
       if String.eqb (connection_point settings) "center"
       then center_of contour else (x, y);
     box_area := contourArea contour |}.

(** [d] is the record the second pass appends for [contour]. *)
Definition recorded (prev : gmap Point Point) (contour : Contour)
    (d : Detection) : Prop :=
  Py.int (contourArea contour) = Some (det_area d) ∧
  det_position d = boundingRect contour ∧
  det_speed d = (motion prev (center_of contour)).1 ∧
  det_direction d = (motion prev (center_of contour)).2.

(** The centres of the contours a frame retains. *)
Definition centers (settings : Settings) (contours : list Contour) : list Point :=
  center_of <$> List.filter (retained settings) contours.

(** Every stored centre is stored under itself. *)
Definition fixed_points (m : gmap Point Point) : Prop :=
  ∀ k v, m !! k = Some v -> v = k.

(** The detector states a run can be in: the fresh detector, and the state
    after any frame that [process_frame] completes. *)
Inductive reachable : MovementDetector -> Prop :=
| reachable_init : reachable init
| reachable_frame self shape contours color settings self' ops' data :
    reachable self ->
    process_frame self shape contours color settings = Some (self', ops', data) ->
    reachable self'.

(** Two contours of areas 800 and 200, and one of area exactly 500. *)
Definition contour_800 : Contour :=
  {| contourArea := 800; boundingRect := (10, 10, 40, 20) |}.
Definition contour_200 : Contour :=
  {| contourArea := 200; boundingRect := (100, 50, 10, 20) |}.
Definition contour_500 : Contour :=
  {| contourArea := 500; boundingRect := (200, 50, 25, 20) |}.

(** The colours the heat map is described with, in blue, green, red order. *)
Definition pure_blue : Color := (255, 0, 0).
Definition pure_green : Color := (0, 255, 0).
Definition pure_yellow : Color := (0, 255, 255).
Definition pure_red : Color := (0, 0, 255).
Definition cyan : Color := (255, 255, 0).

(** The points a drawing call is given. *)
Definition op_points (op : FrameOp) : list Point :=
  match op with
  | WriteRoi x y w h _ => [(x, y); (x + w, y + h)]
  | Rectangle pt1 pt2 _ _ => [pt1; pt2]
  | Line pt1 pt2 _ _ => [pt1; pt2]
  | Circle center _ _ => [center]
  | PutText _ org _ _ => [org]
  end.

(** A point on the pixel grid of a frame of the given [shape], and a point
    on the grid or on its far border (column [width], row [height]). *)
Definition on_grid (shape : Z * Z) (p : Point) : Prop :=
  0 <= p.1 < shape.2 ∧ 0 <= p.2 < shape.1.
Definition on_grid_or_border (shape : Z * Z) (p : Point) : Prop :=
  0 <= p.1 <= shape.2 ∧ 0 <= p.2 <= shape.1.

(** A bounding rectangle that lies inside the frame. *)
Definition inside (shape : Z * Z) (x y w h : Z) : Prop :=
  0 <= x ∧ 0 <= y ∧ 0 <= w ∧ 0 <= h ∧ x + w <= shape.2 ∧ y + h <= shape.1.

(** The box style, corner accents and padding, as the window sets them. *)
Definition set_box (style : string) (corners : bool) (padding : Z)
    (s : Settings) : Settings := {|
  line_distance := line_distance s;
  show_lines := show_lines s;
  negative_effect := negative_effect s;
  negative_intensity := negative_intensity s;
  line_color := line_color s;
  heat_map := heat_map s;
  heat_intensity := heat_intensity s;
  edge_detection := edge_detection s;
  edge_intensity := edge_intensity s;
  edge_color := edge_color s;
  box_thickness := box_thickness s;
  box_style := style;
  box_corners := corners;
  box_padding := padding;
  font_size := font_size s;
  min_area := min_area s;
  font_color := font_color s;
  show_box := show_box s;
  connection_point := connection_point s
|}.

(** Every unordered pair of a list, once, the earlier element first: the
    pairs the double loop of the proximity lines visits. *)
Fixpoint pairs {A : Type} (l : list A) : list (A * A) :=
  match l with
  | [] => []
  | a :: rest => (pair a <$> rest) ++ pairs rest
  end.







(** A box whose connection point is its centre [p]. *)
Definition box_at (p : Point) : Box :=
  {| box_center := p; box_connection_point := p; box_area := 800 |}.


(** ** Vocabulary of the further properties *)

(** The overlays of lines 255 to 272, in the order they are blended. *)
Definition effects_of (settings : Settings) (heat_color : Color) : list Effect :=
  (if negative_effect settings then
     [Negative (Py.float_of_int (negative_intensity settings) / 100)%float]
   else []) ++
  (if heat_map settings then
     [Heat heat_color (Py.float_of_int (heat_intensity settings) / 100)%float]
   else []) ++
  (if edge_detection settings then
     [Edge (edge_color settings)
        (Py.float_of_int (edge_intensity settings) / 100)%float]
   else []).

(** What one pass through the body of the second loop writes for a
    contour whose heat colour is [heat_color] and whose label is [text]. *)
Definition blob_ops (shape : Z * Z) (color : Color) (settings : Settings)
    (contour : Contour) (heat_color : Color) (text : InfoText) : list FrameOp :=
  let '(x, y, w, h) := boundingRect contour in
  WriteRoi x y w h (effects_of settings heat_color) ::
  draw_box shape x y w h (if heat_map settings then heat_color else color) settings ++
  [PutText text (x, y - 10) (font_size settings) (font_color settings)].

(** The writes for a blob that is measured at speed 0 in a frame whose
    maximal speed is 0. *)
Definition still_blob_ops (shape : Z * Z) (color : Color) (settings : Settings)
    (contour : Contour) (d : Detection) : list FrameOp :=
  blob_ops shape color settings contour pure_blue
    {| text_area := det_area d; text_speed := None |}.

(** A line with its end points exchanged. *)
Definition reverse_line (op : FrameOp) : FrameOp :=
  match op with
  | Line pt1 pt2 color thickness => Line pt2 pt1 color thickness
  | _ => op
  end.

(** [r] is the record and the writes the second pass produces for
    [contour] in a frame whose first pass found [max_speed]. *)
Definition blob_written (prev : gmap Point Point) (shape : Z * Z) (color : Color)
    (settings : Settings) (max_speed : float) (contour : Contour)
    (r : Detection * list FrameOp) : Prop :=
  let speed := (motion prev (center_of contour)).1 in
  recorded prev contour r.1 ∧
  ∃ heat_color text,
    (heat_map settings = true ->
     get_heat_color speed max_speed = Some heat_color) ∧
    text_area text = det_area r.1 ∧
    (if (0 <? speed)%float
     then Some <$> Py.int speed = Some (text_speed text)
     else text_speed text = None) ∧
    r.2 = blob_ops shape color settings contour heat_color text.

(** Two records that differ at most in their direction. *)
Definition same_measurements (d1 d2 : Detection) : Prop :=
  det_area d1 = det_area d2 ∧
  det_position d1 = det_position d2 ∧
  det_speed d1 = det_speed d2.

(** A point on the outline of the rectangle with corner (x, y), width w
    and height h. *)
Definition on_outline (box : Z * Z * Z * Z) (p : Point) : Prop :=
  let '(x, y, w, h) := box in
  ((p.1 = x ∨ p.1 = x + w) ∧ y <= p.2 <= y + h) ∨
  ((p.2 = y ∨ p.2 = y + h) ∧ x <= p.1 <= x + w).

(** A horizontal or vertical stroke from [pt1] of a length from 1 to
    [longest]. *)
Definition short_stroke (longest : Z) (pt1 pt2 : Point) : Prop :=
  (pt1.2 = pt2.2 ∧ 1 <= pt2.1 - pt1.1 <= longest) ∨
  (pt1.1 = pt2.1 ∧ 1 <= pt2.2 - pt1.2 <= longest).

(** ** [VideoProcessor]: the names of the output files *)

(** [f"{base_path}_{counter}.mp4"]. *)
Definition output_name (base_path : string) (counter : Z) : string :=
  base_path +:+ "_" +:+ pretty.pretty counter +:+ ".mp4".

(** The loop of [get_next_output_path] from a value of [counter], with a
    bound on its turns; [existing] is the set of paths for which
    [os.path.exists] holds. *)
Fixpoint next_output_path_from (existing : gset string) (base_path : string)
    (fuel : nat) (counter : Z) : option string :=
  match fuel with
  | O => None
  | S fuel =>
      let output_path := output_name base_path counter in
      if decide (output_path ∈ existing)
      then next_output_path_from existing base_path fuel (counter + 1)
      else Some output_path
  end.

(** [get_next_output_path(base_path)]: the loop from [counter = 1]. *)
Definition get_next_output_path (existing : gset string) (fuel : nat)
    (base_path : string) : option string :=
  next_output_path_from existing base_path fuel 1.

(** The part of [s] before its last dot, when it has a dot. *)
Fixpoint before_last_dot (s : string) : option string :=
  match s with
  | EmptyString => None
  | String c rest =>
      match before_last_dot rest with
      | Some head => Some (String c head)
      | None => if Ascii.eqb c "."%char then Some EmptyString else None
      end
  end.

(** [s.rsplit('.', 1)[0]]: [s] itself when it has no dot. *)
Definition rsplit_dot_head (s : string) : string :=
  default s (before_last_dot s).

(** [base_path] and [data_path] of [run]. *)
Definition base_path_of (video_path : string) : string :=
  rsplit_dot_head video_path +:+ "_processed".
Definition data_path_of (output_path : string) : string :=
  rsplit_dot_head output_path +:+ "_data.json".

(** A string without a dot. *)
Fixpoint dotless (s : string) : bool :=
  match s with
  | EmptyString => true
  | String c rest => negb (Ascii.eqb c "."%char) && dotless rest
  end.

(** ** [VideoProcessor.run]: the loop over the frames *)

(** A frame as [process_frame] receives it, after the resize if there is
    one, with the contours found in it. *)
Record Frame := {
  frame_shape : Z * Z;
  frame_contours : list Contour
}.

(** What the loop has done so far: the detector it calls, the frames
    given to [out.write], [detection_data], [frame_count] and the values
    given to [progress.emit]. *)
Record Run := {
  detector : MovementDetector;
  written : list (list FrameOp);
  detection_data : list (list Detection);
  frame_count : Z;
  progress : list Z
}.

(** The state in which [run] enters the loop, with the detector of the
    window: the window creates one detector and hands it to every run. *)
Definition run_start (detector : MovementDetector) : Run :=
  {| detector := detector; written := []; detection_data := [];
     frame_count := 0; progress := [] |}.

(** How the loop ends: by leaving it, or by an exception that the handler
    of [run] catches; either way with what was done until then. *)
Inductive Outcome :=
| Finished (r : Run)
| Raised (r : Run).

Definition final (o : Outcome) : Run :=
  match o with Finished r | Raised r => r end.

(** [int((frame_count / total_frames) * 100)]: a division by zero raises.
    The quotient of two integers below 2^53 is the float quotient. *)
Definition progress_of (frame_count total_frames : Z) : option Z :=
  if total_frames =? 0 then None
  else Py.int (Py.float_of_int frame_count / Py.float_of_int total_frames * 100)%float.

(** The [while] loop of [run].  [is_running turn] is the value of the
    flag [self.is_running] at the head of the given turn; [capture] holds
    the frames [cap.read()] still returns, each with the settings
    dictionary as it is when the frame is processed (the window shares the
    dictionary with the run and may update it meanwhile). *)
Fixpoint frame_loop (is_running : nat -> bool) (color : Color) (save_data : bool)
    (total_frames : Z) (turn : nat) (capture : list (Settings * Frame))
    (r : Run) : Outcome :=
  match capture with
  | [] => Finished r
  | (settings, frame) :: rest =>
      if is_running turn then
        match process_frame (detector r) (frame_shape frame)
                (frame_contours frame) color settings with
        | None => Raised r
        | Some (detector', processed_frame, frame_data) =>
            let r' := {|
              detector := detector';
              written := written r ++ [processed_frame];
              detection_data :=
                if save_data then detection_data r ++ [frame_data]
                else detection_data r;
              frame_count := frame_count r + 1;
              progress := progress r
            |} in
            match progress_of (frame_count r') total_frames with
            | None => Raised r'
            | Some p =>
                frame_loop is_running color save_data total_frames (S turn) rest
                  {| detector := detector r'; written := written r';
                     detection_data := detection_data r';
                     frame_count := frame_count r';
                     progress := progress r' ++ [p] |}
            end
        end
      else Finished r
  end.

(** A record of a blob that was not seen to move. *)
Definition motionless (d : Detection) : Prop :=
  det_speed d = 0%float ∧ (det_direction d = "Up" ∨ det_direction d = "N/A").

(** The records of one frame of a run: one for each retained contour, in
    order, with its bounding rectangle and truncated area, and without
    motion. *)
Definition frame_record (turn : Settings * Frame) (data : list Detection) : Prop :=
  Forall2
    (fun contour d =>
       det_position d = boundingRect contour ∧
       Py.int (contourArea contour) = Some (det_area d) ∧
       motionless d)
    (List.filter (retained turn.1) (frame_contours turn.2)) data.

(** [MainWindow.process_video]: the window creates its detector once and
    gives the same object to the processor of every video, so a run starts
    with the detector as the run before left it. *)
Definition process_video (previous : Outcome) : Run :=
  run_start (detector (final previous)).

(** The flag of a run that is never stopped. *)
Definition never_stopped : nat -> bool := fun _ => true.

(** A frame with the contours given, of 480 rows and 640 columns. *)
Definition frame_of (contours : list Contour) : Frame :=
  {| frame_shape := (480, 640); frame_contours := contours |}.

(** * Properties *)

(** ** Facts about binary64 *)






(** ** The second pass, contour by contour *)

Section SecondPass.

Variables (prev : gmap Point Point) (shape : Z * Z) (color : Color).
Variables (settings : Settings) (max_speed : float).

Lemma process_contour_Some contour acc acc' :
  process_contour prev shape color settings max_speed contour acc = Some acc' ->
  ∃ d box_color text scale effects,
    recorded prev contour d ∧
    (if heat_map settings
     then get_heat_color (motion prev (center_of contour)).1 max_speed = Some box_color
     else box_color = color) ∧
    ops acc' = ops acc ++
      (let '(x, y, w, h) := boundingRect contour in
       WriteRoi x y w h effects ::
       draw_box shape x y w h box_color settings ++
       [PutText text (x, y - 10) scale (font_color settings)]) ∧
    boxes acc' = boxes acc ++ [box_of settings contour] ∧
    frame_data acc' = frame_data acc ++ [d] ∧
    current_centers acc' =
      <[center_of contour := center_of contour]> (current_centers acc).
Proof.
  unfold process_contour, recorded, box_of, center_of.
  destruct (boundingRect contour) as [[[x y] w] h].
  destruct (motion prev (x + w / 2, y + h / 2)) as [speed direction]; simpl.
  intros H.
  destruct (heat_map settings).
  - destruct (get_heat_color speed max_speed) as [c|]; simpl in H; [|discriminate].
    destruct (Py.int (contourArea contour)) as [a|]; simpl in H; [|discriminate].
    destruct (if (0 <? speed)%float then Some <$> Py.int speed else Some None)
      as [ts|]; simpl in H; [|discriminate].
    injection H as <-. simpl.
    eexists {| det_area := a |}, c, _, _, _. simpl. repeat split; reflexivity.
  - simpl in H.
    destruct (Py.int (contourArea contour)) as [a|]; simpl in H; [|discriminate].
    destruct (if (0 <? speed)%float then Some <$> Py.int speed else Some None)
      as [ts|]; simpl in H; [|discriminate].
    injection H as <-. simpl.
    eexists {| det_area := a |}, color, _, _, _. simpl. repeat split; reflexivity.
Qed.

(** The second pass appends one box and one record per retained contour,
    in order, and inserts each centre under itself. *)
Lemma second_pass_Some contours acc acc' :
  second_pass prev shape color settings max_speed contours acc = Some acc' ->
  ∃ data,
    Forall2 (recorded prev) (List.filter (retained settings) contours) data ∧
    frame_data acc' = frame_data acc ++ data ∧
    boxes acc' =
      boxes acc ++ (box_of settings <$> List.filter (retained settings) contours) ∧
    current_centers acc' =
      fold_left (fun m k => <[k := k]> m)
        (center_of <$> List.filter (retained settings) contours)
        (current_centers acc).
Proof.
  revert acc. induction contours as [|contour rest IH]; intros acc H; simpl in *.
  - injection H as <-. exists []. rewrite !app_nil_r. repeat split. constructor.
  - destruct (retained settings contour); [|exact (IH _ H)].
    destruct (process_contour prev shape color settings max_speed contour acc)
      as [acc1|] eqn:Hstep; simpl in H; [|discriminate].
    apply process_contour_Some in Hstep
      as (d & _ & _ & _ & _ & Hd & _ & _ & Hboxes & Hdata & Hcur).
    destruct (IH _ H) as (data & Hall & Hdata' & Hboxes' & Hcur').
    exists (d :: data). simpl. split; [constructor; assumption|].
    rewrite Hdata', Hdata, Hboxes', Hboxes, Hcur', Hcur, <- !app_assoc.
    repeat split.
Qed.

End SecondPass.

(** ** One frame *)

Lemma process_frame_Some self shape contours color settings self' ops' data :
  process_frame self shape contours color settings = Some (self', ops', data) ->
  ∃ acc lines,
    second_pass (prev_centers self) shape color settings
      (first_pass (prev_centers self) settings contours) contours pass_start
      = Some acc ∧
    (if show_lines settings
     then proximity_lines settings (boxes acc) = Some lines else lines = []) ∧
    self' = {| prev_centers := current_centers acc; next_id := next_id self |} ∧
    ops' = ops acc ++ lines ∧
    data = frame_data acc.
Proof.
  unfold process_frame. intros H.
  destruct (second_pass _ _ _ _ _ _ _) as [acc|] eqn:Hacc; simpl in H;
    [|discriminate].
  exists acc. destruct (show_lines settings).
  - destruct (proximity_lines settings (boxes acc)) as [lines|] eqn:Hlines;
      simpl in H; [|discriminate].
    injection H as <- <- <-. exists lines. repeat split.
  - simpl in H. injection H as <- <- <-. exists []. repeat split.
Qed.

Lemma process_frame_records self shape contours color settings self' ops' data :
  process_frame self shape contours color settings = Some (self', ops', data) ->
  Forall2 (recorded (prev_centers self))
    (List.filter (retained settings) contours) data ∧
  prev_centers self' =
    fold_left (fun m k => <[k := k]> m) (centers settings contours) ∅ ∧
  next_id self' = next_id self.
Proof.
  intros H. apply process_frame_Some in H as (acc & lines & Hacc & _ & -> & _ & ->).
  apply second_pass_Some in Hacc as (data & Hall & Hdata & _ & Hcur).
  simpl in *. rewrite Hdata, Hcur. repeat split. exact Hall.
Qed.

Lemma lookup_fold_insert (ks : list Point) (m : gmap Point Point) (k : Point) :
  fold_left (fun m k => <[k := k]> m) ks m !! k =
  if decide (k ∈ ks) then Some k else m !! k.
Proof.
  revert m. induction ks as [|k0 ks IH]; intros m; cbn [fold_left].
  - case_decide as Hin; [|reflexivity]. now apply not_elem_of_nil in Hin.
  - rewrite IH.
    destruct (decide (k ∈ ks)) as [Hin|Hnin].
    + rewrite decide_True; [reflexivity | now apply elem_of_cons; right].
    + destruct (decide (k = k0)) as [->|Hne].
      * rewrite decide_True; [apply lookup_insert_eq | now apply elem_of_cons; left].
      * rewrite decide_False, lookup_insert_ne; [reflexivity | congruence |].
        rewrite elem_of_cons. tauto.
Qed.

(** C9. When [process_frame] completes, the stored centres are exactly the
    centres of the contours retained in this frame, each stored under
    itself, whatever was stored before; a centre of the previous frame that
    does not recur is absent; and [next_id], the only other field, is left
    as it was. *)
Theorem tracker_state_is_replaced
    self shape contours color settings self' ops' data :
  process_frame self shape contours color settings = Some (self', ops', data) ->
  (∀ k, prev_centers self' !! k =
        if decide (k ∈ centers settings contours) then Some k else None) ∧
  dom (prev_centers self') = list_to_set (centers settings contours) ∧
  (∀ k, is_Some (prev_centers self !! k) -> k ∉ centers settings contours ->
        prev_centers self' !! k = None) ∧
  next_id self' = next_id self.
Proof.
  intros H. apply process_frame_records in H as (_ & Hcur & Hid).
  assert (Hlook : ∀ k, prev_centers self' !! k =
            if decide (k ∈ centers settings contours) then Some k else None).
  { intros k. rewrite Hcur, lookup_fold_insert, lookup_empty. reflexivity. }
  repeat split; [exact Hlook | | | exact Hid].
  - apply set_eq. intros k. rewrite elem_of_dom, Hlook, elem_of_list_to_set.
    destruct (decide (k ∈ centers settings contours)) as [Hin|Hnin].
    + split; [intros _; exact Hin | intros _; eexists; reflexivity].
    + split; [intros [? ?]; discriminate | intros ?; contradiction].
  - intros k _ Hnin. rewrite Hlook, decide_False; [reflexivity | exact Hnin].
Qed.

Lemma tracker_state_is_replaced_witness :
  let self := {| prev_centers := {[ (5, 5) := (5, 5) ]}; next_id := 7 |} in
  ∃ self' ops' data,
    process_frame self (480, 640) [contour_800; contour_200] (0, 0, 0)
      default_settings = Some (self', ops', data) ∧
    prev_centers self' !! (30, 20) = Some (30, 20) ∧
    prev_centers self' !! (5, 5) = None ∧
    next_id self' = 7.
Proof.
  intros self.
  destruct (process_frame self (480, 640) [contour_800; contour_200] (0, 0, 0)
              default_settings) as [[[self' ops'] data]|] eqn:H.
  - exists self', ops', data. split; [reflexivity|].
    destruct (tracker_state_is_replaced _ _ _ _ _ _ _ _ H) as (Hlook & _ & _ & Hid).
    rewrite !Hlook, Hid. repeat split.
  - vm_compute in H. discriminate.
Defined.

(** C8. A contour is retained exactly when its area compares strictly
    above [min_area], and the records of a completed frame are those of
    the retained contours, one each and in order, with the contour's
    bounding rectangle and truncated area.  With [min_area] = 500 a contour
    of area 500 is discarded, and of two contours of areas 800 and 200 only
    the first is recorded. *)
Theorem retained_contours_are_recorded :
  (∀ settings contour,
     retained settings contour = true <->
     (Py.float_of_int (min_area settings) <? contourArea contour)%float = true) ∧
  (∀ self shape contours color settings self' ops' data,
     process_frame self shape contours color settings = Some (self', ops', data) ->
     Forall2
       (fun contour d =>
          det_position d = boundingRect contour ∧
          Py.int (contourArea contour) = Some (det_area d))
       (List.filter (retained settings) contours) data) ∧
  (∀ settings, min_area settings = 500 ->
     retained settings contour_800 = true ∧
     retained settings contour_500 = false ∧
     retained settings contour_200 = false) ∧
  (∀ self shape color settings self' ops' data,
     min_area settings = 500 ->
     process_frame self shape [contour_800; contour_200] color settings
       = Some (self', ops', data) ->
     ∃ d, data = [d] ∧ det_area d = 800 ∧
          det_position d = boundingRect contour_800) ∧
  (∃ self' ops',
     process_frame init (480, 640) [contour_800; contour_200] (0, 0, 0)
       default_settings
     = Some (self', ops',
             [{| det_area := 800; det_position := (10, 10, 40, 20);
                 det_speed := 0; det_direction := "N/A" |}])).
Proof.
  assert (Hdefault : ∀ settings, min_area settings = 500 ->
            retained settings contour_800 = true ∧
            retained settings contour_500 = false ∧
            retained settings contour_200 = false).
  { intros settings Hmin. unfold retained. rewrite Hmin. repeat split. }
  assert (Hrec : ∀ self shape contours color settings self' ops' data,
            process_frame self shape contours color settings
              = Some (self', ops', data) ->
            Forall2
              (fun contour d =>
                 det_position d = boundingRect contour ∧
                 Py.int (contourArea contour) = Some (det_area d))
              (List.filter (retained settings) contours) data).
  { intros * H. apply process_frame_records in H as (Hall & _ & _).
    eapply Forall2_impl; [|exact Hall]. intros c d (Ha & Hp & _ & _). now split. }
  split; [reflexivity|]. split; [exact Hrec|]. split; [exact Hdefault|]. split.
  - intros * Hmin H. apply Hrec in H.
    destruct (Hdefault _ Hmin) as (H800 & _ & H200).
    cbn [List.filter] in H. rewrite H800, H200 in H.
    inversion H as [|c d ? ? [Hp Ha] Hnil]; subst. inversion Hnil; subst.
    exists d. repeat split; [|exact Hp].
    assert (E : Py.int (contourArea contour_800) = Some 800) by reflexivity.
    rewrite E in Ha. now injection Ha.
  - eexists _, _. vm_compute. reflexivity.
Qed.

Lemma retained_contours_are_recorded_witness :
  ∃ self' ops' data,
    process_frame init (480, 640) [contour_200; contour_800; contour_500]
      (0, 0, 0) default_settings = Some (self', ops', data) ∧
    Forall2
      (fun contour d =>
         det_position d = boundingRect contour ∧
         Py.int (contourArea contour) = Some (det_area d))
      [contour_800] data.
Proof.
  destruct (process_frame init (480, 640) [contour_200; contour_800; contour_500]
              (0, 0, 0) default_settings) as [[[self' ops'] data]|] eqn:H.
  - exists self', ops', data. split; [reflexivity|].
    exact (proj1 (proj2 retained_contours_are_recorded) _ _ _ _ _ _ _ _ H).
  - vm_compute in H. discriminate.
Defined.

(** ** The tracker *)

Lemma fixed_points_fold_insert (ks : list Point) :
  fixed_points (fold_left (fun m k => <[k := k]> m) ks ∅).
Proof.
  intros k v. rewrite lookup_fold_insert, lookup_empty.
  case_decide; congruence.
Qed.

Lemma reachable_fixed_points self : reachable self -> fixed_points (prev_centers self).
Proof.
  intros [|? ? ? ? ? ? ? ? _ H].
  - intros k v. simpl. rewrite lookup_empty. discriminate.
  - apply process_frame_records in H as (_ & -> & _).
    apply fixed_points_fold_insert.
Qed.

Lemma speed_between_same (center : Point) : speed_between center center = 0%float.
Proof.
  unfold speed_between. rewrite !Z.sub_diag. reflexivity.
Qed.

(** With every centre stored under itself, a match is a match with the
    blob's own centre: no displacement, no speed, and the direction of the
    last branch. *)
Lemma motion_fixed_points prev center :
  fixed_points prev ->
  motion prev center =
  (0%float, if decide (is_Some (prev !! center)) then "Up" else "N/A").
Proof.
  intros Hfix. unfold motion.
  destruct (prev !! center) as [p|] eqn:Hp.
  - rewrite (Hfix _ _ Hp), speed_between_same, !Z.sub_diag.
    rewrite decide_True; [reflexivity | eexists; reflexivity].
  - rewrite decide_False; [reflexivity | intros [? ?]; discriminate].
Qed.

Lemma first_pass_fixed_points prev settings contours :
  fixed_points prev -> first_pass prev settings contours = 0%float.
Proof.
  intros Hfix. unfold first_pass.
  induction contours as [|contour rest IH]; [reflexivity|]. cbn [fold_left].
  destruct (retained settings contour); [|exact IH].
  destruct (prev !! center_of contour) as [p|] eqn:Hp; [|exact IH].
  rewrite (Hfix _ _ Hp), speed_between_same. exact IH.
Qed.

(** C2. In every state a run can reach, each stored centre is stored under
    itself, and a frame processed from such a state leaves a state of the
    same kind.  So in that frame the maximal speed of the first pass is 0,
    every record carries speed 0.0, and the direction recorded for a
    retained contour is "Up" when its centre is stored and "N/A" when it is
    not. *)
Theorem tracker_never_measures_motion self :
  reachable self ->
  fixed_points (prev_centers self) ∧
  ∀ shape contours color settings self' ops' data,
    process_frame self shape contours color settings = Some (self', ops', data) ->
    fixed_points (prev_centers self') ∧
    first_pass (prev_centers self) settings contours = 0%float ∧
    Forall2
      (fun contour d =>
         det_speed d = 0%float ∧
         det_direction d =
           if decide (is_Some (prev_centers self !! center_of contour))
           then "Up" else "N/A")
      (List.filter (retained settings) contours) data.
Proof.
  intros Hreach. pose proof (reachable_fixed_points _ Hreach) as Hfix.
  split; [exact Hfix|]. intros * H.
  split; [apply reachable_fixed_points; econstructor; eassumption|].
  split; [now apply first_pass_fixed_points|].
  apply process_frame_records in H as (Hall & _ & _).
  eapply Forall2_impl; [|exact Hall]. intros c d (_ & _ & Hs & Hd).
  rewrite (motion_fixed_points _ _ Hfix) in Hs, Hd. now split.
Qed.

Lemma tracker_never_measures_motion_witness :
  ∃ self1 ops1 data1,
    process_frame init (480, 640) [contour_800] (0, 0, 0) default_settings
      = Some (self1, ops1, data1) ∧
    fixed_points (prev_centers self1) ∧
    ∀ shape contours color settings self' ops' data,
      process_frame self1 shape contours color settings
        = Some (self', ops', data) ->
      fixed_points (prev_centers self') ∧
      first_pass (prev_centers self1) settings contours = 0%float ∧
      Forall2
        (fun contour d =>
           det_speed d = 0%float ∧
           det_direction d =
             if decide (is_Some (prev_centers self1 !! center_of contour))
             then "Up" else "N/A")
        (List.filter (retained settings) contours) data.
Proof.
  destruct (process_frame init (480, 640) [contour_800] (0, 0, 0)
              default_settings) as [[[self1 ops1] data1]|] eqn:H.
  - exists self1, ops1, data1. split; [reflexivity|].
    apply tracker_never_measures_motion.
    exact (reachable_frame _ _ _ _ _ _ _ _ reachable_init H).
  - vm_compute in H. discriminate.
Defined.

(** A blob that stays where it was is matched with itself and recorded
    with speed 0.0 and direction "Up". *)
Example still_blob_is_reported_up :
  let self1 := {| prev_centers := {[ (30, 20) := (30, 20) ]}; next_id := 0 |} in
  fst <$> process_frame init (480, 640) [contour_800] (0, 0, 0) default_settings
    = Some (self1,
            [WriteRoi 10 10 40 20
               [Negative 1; Heat pure_blue 0.5; Edge (255, 255, 170) 0.5];
             Rectangle (10, 10) (50, 30) pure_blue 2;
             PutText {| text_area := 800; text_speed := None |} (10, 0)
               0x1.ccccccccccccdp-1 (0, 0, 0)]) ∧
  snd <$> process_frame self1 (480, 640) [contour_800; contour_200; contour_500]
            (0, 0, 0) default_settings
    = Some [{| det_area := 800; det_position := (10, 10, 40, 20);
               det_speed := 0; det_direction := "Up" |}].
Proof. split; vm_compute; reflexivity. Qed.




(** ** Directions *)

(** C6. With displacement (dx, dy): "Right" when |dx| > |dy| and dx > 0,
    "Left" when |dx| > |dy| and dx <= 0, otherwise "Down" when dy > 0 and
    "Up" when not; a tie |dx| = |dy| is decided by dy alone.  This is the
    direction the second pass gives a matched blob.  The five displacements
    of the specification classify as it says. *)
Theorem direction_classification :
  (∀ dx dy,
     (Z.abs dx > Z.abs dy -> dx > 0 -> direction_of dx dy = "Right") ∧
     (Z.abs dx > Z.abs dy -> dx <= 0 -> direction_of dx dy = "Left") ∧
     (Z.abs dx <= Z.abs dy -> dy > 0 -> direction_of dx dy = "Down") ∧
     (Z.abs dx <= Z.abs dy -> dy <= 0 -> direction_of dx dy = "Up") ∧
     (Z.abs dx = Z.abs dy ->
      direction_of dx dy = "Down" ∨ direction_of dx dy = "Up")) ∧
  (∀ prev center prev_center,
     prev !! center = Some prev_center ->
     (motion prev center).2 =
     direction_of (center.1 - prev_center.1) (center.2 - prev_center.2)) ∧
  direction_of 5 2 = "Right" ∧
  direction_of (-5) 2 = "Left" ∧
  direction_of 2 5 = "Down" ∧
  direction_of 2 (-5) = "Up" ∧
  direction_of 3 3 = "Down".
Proof.
  split; [|split; [|repeat split; reflexivity]].
  - intros dx dy. unfold direction_of.
    destruct (Z.ltb_spec (Z.abs dy) (Z.abs dx)), (Z.ltb_spec 0 dx),
      (Z.ltb_spec 0 dy);
      (split; [|split; [|split; [|split]]]); intros;
      first [reflexivity | exfalso; lia | left; reflexivity | right; reflexivity].
  - intros prev center prev_center H. unfold motion. now rewrite H.
Qed.

Lemma direction_classification_witness :
  direction_of 7 (-3) = "Right" ∧
  (motion {[ (30, 20) := (34, 27) ]} (30, 20)).2 = "Up".
Proof.
  split.
  - apply (proj1 direction_classification 7 (-3)); lia.
  - rewrite (proj1 (proj2 direction_classification) _ _ (34, 27));
      [reflexivity | apply lookup_singleton_eq].
Defined.

(** ** Heat colours *)

(** C10. With a maximal speed of 0 the heat colour is pure blue, whatever
    the speed. *)
Theorem heat_color_without_movement :
  (∀ speed, get_heat_color speed 0 = Some pure_blue) ∧
  get_heat_color 0 0 = Some pure_blue.
Proof. split; reflexivity. Qed.

(** C3 (the code departs from it). The colours at the five breakpoints of
    the ratio: pure blue at 0 and pure red at 1, but cyan instead of pure
    green at 0.25, pure green instead of pure yellow at 0.5, and pure yellow
    instead of an orange at 0.75, the end of the third segment, just below
    0.75, being almost pure red. *)
Theorem heat_color_breakpoints :
  get_heat_color 0 4 = Some pure_blue ∧
  get_heat_color 1 4 = Some cyan ∧
  get_heat_color 2 4 = Some pure_green ∧
  get_heat_color 3 4 = Some pure_yellow ∧
  get_heat_color 4 4 = Some pure_red ∧
  get_heat_color 2.984375 4 = Some (0, 4, 251) ∧
  get_heat_color 1 4 ≠ Some pure_green ∧
  get_heat_color 2 4 ≠ Some pure_yellow.
Proof. repeat split; try (vm_compute; reflexivity); vm_compute; discriminate. Qed.

(** ** The [show_box] setting *)

Lemma second_pass_set_show_box b prev shape color settings max_speed contours acc :
  second_pass prev shape color (set_show_box b settings) max_speed contours acc
  = second_pass prev shape color settings max_speed contours acc.
Proof.
  revert acc. induction contours as [|contour rest IH]; intros acc; [reflexivity|].
  cbn [second_pass].
  change (retained (set_show_box b settings) contour)
    with (retained settings contour).
  change (process_contour prev shape color (set_show_box b settings) max_speed
            contour acc)
    with (process_contour prev shape color settings max_speed contour acc).
  destruct (retained settings contour); [|apply IH].
  destruct (process_contour prev shape color settings max_speed contour acc);
    [apply IH | reflexivity].
Qed.

Lemma links_from_set_show_box b settings box1 others :
  links_from (set_show_box b settings) box1 others = links_from settings box1 others.
Proof.
  induction others as [|box2 rest IH]; [reflexivity|].
  cbn [links_from]. rewrite IH. reflexivity.
Qed.

Lemma proximity_lines_set_show_box b settings boxes :
  proximity_lines (set_show_box b settings) boxes = proximity_lines settings boxes.
Proof.
  induction boxes as [|box1 rest IH]; [reflexivity|].
  cbn [proximity_lines]. now rewrite IH, links_from_set_show_box.
Qed.

(** C1 (the code departs from it). [process_frame] never reads [show_box]:
    setting it to either value changes nothing, and with [show_box] false
    the rectangle of a retained contour is drawn all the same. *)
Theorem show_box_is_ignored :
  (∀ b self shape contours color settings,
     process_frame self shape contours color (set_show_box b settings)
     = process_frame self shape contours color settings) ∧
  snd <$> (fst <$> process_frame init (480, 640) [contour_800] (0, 0, 0)
                     (set_show_box false default_settings))
  = Some [WriteRoi 10 10 40 20
            [Negative 1; Heat pure_blue 0.5; Edge (255, 255, 170) 0.5];
          Rectangle (10, 10) (50, 30) pure_blue 2;
          PutText {| text_area := 800; text_speed := None |} (10, 0)
            0x1.ccccccccccccdp-1 (0, 0, 0)].
Proof.
  split; [|vm_compute; reflexivity].
  intros. unfold process_frame.
  change (first_pass (prev_centers self) (set_show_box b settings) contours)
    with (first_pass (prev_centers self) settings contours).
  rewrite second_pass_set_show_box.
  destruct (second_pass _ _ _ _ _ _ _) as [acc|]; [|reflexivity].
  cbn [mbind option_bind]. change (show_lines (set_show_box b settings))
    with (show_lines settings).
  now rewrite proximity_lines_set_show_box.
Qed.

(** ** Boxes *)

Lemma elem_of_range (i stop step : Z) :
  0 < step -> i ∈ Py.range stop step -> 0 <= i < stop.
Proof.
  intros Hstep Hin. unfold Py.range in Hin.
  apply list_elem_of_fmap in Hin as (k & -> & Hk).
  apply elem_of_seq in Hk as [_ Hk]. simpl in Hk.
  assert (Hq : Z.of_nat k < (stop + step - 1) / step) by lia.
  pose proof (Z.mul_div_le (stop + step - 1) step Hstep). nia.
Qed.

Ltac box_points :=
  repeat match goal with
  | H : _ ∈ _ ++ _ |- _ => apply elem_of_app in H as [H|H]
  | H : _ ∈ mbind _ _ |- _ =>
      let i := fresh "i" in let Hi := fresh "Hi" in
      apply list_elem_of_bind in H as (i & H & Hi);
      apply elem_of_range in Hi; [|lia]
  | H : _ ∈ _ :: _ |- _ => apply elem_of_cons in H as [->|H]
  | H : _ ∈ [] |- _ => apply elem_of_nil in H; contradiction
  end.

(** C5 (as amended). For a bounding rectangle inside the frame and a
    padding that is not negative, the padded and clamped box starts at
    x >= 0, y >= 0 and ends at x + w <= width, y + h <= height, and every
    point [draw_box] hands to a drawing call has 0 <= x <= width and
    0 <= y <= height.  The right and bottom edges may lie on column [width]
    and row [height]. *)
Theorem padded_box_within_frame shape x y w h color settings :
  inside shape x y w h ->
  0 <= box_padding settings ->
  (let '(x', y', w', h') := padded_box shape x y w h settings in
   inside shape x' y' w' h') ∧
  ∀ op p,
    op ∈ draw_box shape x y w h color settings ->
    p ∈ op_points op ->
    on_grid_or_border shape p.
Proof.
  intros (Hx & Hy & Hw & Hh & Hxw & Hyh) Hpad.
  unfold draw_box, padded_box, inside, on_grid_or_border.
  destruct shape as [height width]. cbn [fst snd] in *.
  set (x' := Z.max 0 (x - box_padding settings)).
  set (y' := Z.max 0 (y - box_padding settings)).
  set (w' := Z.min (width - x') (w + 2 * box_padding settings)).
  set (h' := Z.min (height - y') (h + 2 * box_padding settings)).
  assert (Hbox : 0 <= x' ∧ 0 <= y' ∧ 0 <= w' ∧ 0 <= h' ∧
                 x' + w' <= width ∧ y' + h' <= height) by lia.
  split; [exact Hbox|].
  assert (Hc : 0 <= Z.min w' h' / 4 <= Z.min w' h').
  { split; [apply Z.div_pos; lia|].
    apply Z.div_le_upper_bound; lia. }
  clearbody x' y' w' h'. intros op p Hop Hp.
  destruct (String.eqb (box_style settings) "solid");
    [|destruct (String.eqb (box_style settings) "dashed");
      [|destruct (String.eqb (box_style settings) "dotted")]];
    destruct (box_corners settings);
    box_points; cbn [op_points] in Hp; box_points; cbn [fst snd]; lia.
Qed.

Lemma padded_box_within_frame_witness :
  let settings := set_box "dashed" true 10 default_settings in
  inside (100, 100) 5 85 12 15 ∧
  ∀ op p,
    op ∈ draw_box (100, 100) 5 85 12 15 (0, 0, 0) settings ->
    p ∈ op_points op ->
    on_grid_or_border (100, 100) p.
Proof.
  intros settings.
  assert (Hin : inside (100, 100) 5 85 12 15) by (unfold inside; simpl; lia).
  split; [exact Hin|].
  apply (padded_box_within_frame (100, 100) 5 85 12 15 (0, 0, 0) settings Hin).
  simpl. lia.
Defined.

(** C5 as stated fails: a rectangle that ends at the last column and the
    last row of the frame is inside the frame, and with no padding its box
    is drawn to the corner (width, height), which is not on the grid. *)
Lemma padded_box_reaches_the_border :
  inside (100, 100) 90 90 10 10 ∧
  0 <= box_padding default_settings ∧
  padded_box (100, 100) 90 90 10 10 default_settings = (90, 90, 10, 10) ∧
  draw_box (100, 100) 90 90 10 10 (0, 0, 0) default_settings
    = [Rectangle (90, 90) (100, 100) (0, 0, 0) 2] ∧
  (100, 100) ∈ op_points (Rectangle (90, 90) (100, 100) (0, 0, 0) 2) ∧
  ¬ on_grid (100, 100) (100, 100).
Proof.
  split; [unfold inside; simpl; lia|].
  split; [simpl; lia|].
  split; [reflexivity|].
  split; [reflexivity|].
  split.
  - apply elem_of_cons; right. apply elem_of_cons; left. reflexivity.
  - unfold on_grid. simpl. lia.
Qed.

(** ** Proximity lines *)







Lemma elem_of_pairs {A : Type} (l : list A) (a b : A) :
  (a, b) ∈ pairs l <->
  ∃ i j : nat, (i < j)%nat ∧ l !! i = Some a ∧ l !! j = Some b.
Proof.
  induction l as [|x rest IH]; cbn [pairs].
  - split; [intros H; now apply elem_of_nil in H|].
    intros (i & j & _ & H & _). discriminate.
  - rewrite elem_of_app, list_elem_of_fmap, IH. split.
    + intros [(b' & [= -> ->] & Hb)|(i & j & Hij & Hi & Hj)].
      * apply list_elem_of_lookup in Hb as [j Hj].
        exists 0%nat, (S j). repeat split; [lia | exact Hj].
      * exists (S i), (S j). repeat split; [lia | exact Hi | exact Hj].
    + intros (i & j & Hij & Hi & Hj).
      destruct j as [|j]; [lia|]. destruct i as [|i]; simpl in Hi, Hj.
      * left. injection Hi as ->. exists b. split; [reflexivity|].
        apply list_elem_of_lookup. now exists j.
      * right. exists i, j. repeat split; [lia | exact Hi | exact Hj].
Qed.

(** What one pass through the body of the inner loop draws. *)
Lemma link_Some settings box1 box2 drawn :
  link settings box1 box2 = Some drawn ->
  let point1 := box_connection_point box1 in
  let point2 := box_connection_point box2 in
  let d := distance point1 point2 in
  if (d <? Py.float_of_int (line_distance settings))%float then
    ∃ intensity color,
      line_intensity settings d = Some intensity ∧
      scaled_line_color settings intensity = Some color ∧
      drawn = [Line point1 point2 color 2]
  else drawn = [].
Proof.
  unfold link. cbn zeta.
  destruct (_ <? _)%float; [|now intros [= <-]].
  destruct (line_intensity _ _) as [intensity|] eqn:Hi; cbn; [|discriminate].
  destruct (scaled_line_color _ _) as [color|] eqn:Hc; cbn; [|discriminate].
  intros [= <-]. now exists intensity, color.
Qed.

Lemma links_from_Some settings box1 others lines :
  links_from settings box1 others = Some lines ->
  (∀ box2, box2 ∈ others -> is_Some (link settings box1 box2)) ∧
  (∀ op, op ∈ lines <->
         ∃ box2 drawn, box2 ∈ others ∧
           link settings box1 box2 = Some drawn ∧ op ∈ drawn).
Proof.
  revert lines. induction others as [|box2 rest IH]; intros lines; cbn [links_from].
  - intros [= <-]. split.
    + intros ? H. now apply elem_of_nil in H.
    + intros op. split; [intros H; now apply elem_of_nil in H|].
      intros (? & ? & H & _). now apply elem_of_nil in H.
  - destruct (link settings box1 box2) as [l|] eqn:Hl; cbn; [|discriminate].
    destruct (links_from settings box1 rest) as [ls|]; cbn; [|discriminate].
    intros [= <-]. destruct (IH _ eq_refl) as [IH1 IH2]. split.
    + intros b Hb. apply elem_of_cons in Hb as [->|Hb]; [now rewrite Hl | auto].
    + intros op. rewrite elem_of_app, IH2. split.
      * intros [Hop|(b & dr & Hb & Hlink & Hop)].
        -- exists box2, l. repeat split; [now left | exact Hl | exact Hop].
        -- exists b, dr. repeat split; [now right | exact Hlink | exact Hop].
      * intros (b & dr & Hb & Hlink & Hop).
        apply elem_of_cons in Hb as [->|Hb].
        -- left. rewrite Hl in Hlink. now injection Hlink as ->.
        -- right. now exists b, dr.
Qed.

Lemma proximity_lines_Some settings boxes lines :
  proximity_lines settings boxes = Some lines ->
  (∀ box1 box2, (box1, box2) ∈ pairs boxes ->
                is_Some (link settings box1 box2)) ∧
  (∀ op, op ∈ lines <->
         ∃ box1 box2 drawn, (box1, box2) ∈ pairs boxes ∧
           link settings box1 box2 = Some drawn ∧ op ∈ drawn).
Proof.
  revert lines. induction boxes as [|box1 rest IH]; intros lines;
    cbn [proximity_lines pairs].
  - intros [= <-]. split.
    + intros ? ? H. now apply elem_of_nil in H.
    + intros op. split; [intros H; now apply elem_of_nil in H|].
      intros (? & ? & ? & H & _). now apply elem_of_nil in H.
  - destruct (links_from settings box1 rest) as [l|] eqn:Hl; cbn; [|discriminate].
    destruct (proximity_lines settings rest) as [ls|]; cbn; [|discriminate].
    intros [= <-]. destruct (IH _ eq_refl) as [IH1 IH2].
    apply links_from_Some in Hl as [Hl1 Hl2]. split.
    + intros b1 b2 Hb. apply elem_of_app in Hb as [Hb|Hb]; [|auto].
      apply list_elem_of_fmap in Hb as (b & [= -> ->] & Hb). auto.
    + intros op. rewrite elem_of_app, Hl2, IH2. split.
      * intros [(b2 & dr & Hb & Hlink & Hop)|(b1 & b2 & dr & Hb & Hlink & Hop)].
        -- exists box1, b2, dr. repeat split; [|exact Hlink | exact Hop].
           apply elem_of_app; left. apply list_elem_of_fmap. now exists b2.
        -- exists b1, b2, dr. repeat split; [|exact Hlink | exact Hop].
           apply elem_of_app; now right.
      * intros (b1 & b2 & dr & Hb & Hlink & Hop).
        apply elem_of_app in Hb as [Hb|Hb].
        -- apply list_elem_of_fmap in Hb as (b & [= -> ->] & Hb).
           left. now exists b, dr.
        -- right. now exists b1, b2, dr.
Qed.







Lemma proximity_lines_close settings boxes lines :
  proximity_lines settings boxes = Some lines ->
  (∀ (i j : nat) box1 box2,
     (i < j)%nat -> boxes !! i = Some box1 -> boxes !! j = Some box2 ->
     (∃ color,
        Line (box_connection_point box1) (box_connection_point box2) color 2
          ∈ lines) <->
     (distance (box_connection_point box1) (box_connection_point box2)
        <? Py.float_of_int (line_distance settings))%float = true) ∧
  (∀ op, op ∈ lines ->
     ∃ (i j : nat) box1 box2 intensity b g r,
       (i < j)%nat ∧ boxes !! i = Some box1 ∧ boxes !! j = Some box2 ∧
       let point1 := box_connection_point box1 in
       let point2 := box_connection_point box2 in
       let d := distance point1 point2 in
       (d <? Py.float_of_int (line_distance settings))%float = true ∧
       Py.int (255 * (1 - d / Py.float_of_int (line_distance settings)))%float
         = Some intensity ∧
       Py.int (Py.float_of_int ((line_color settings).1.1 * intensity) / 255)%float
         = Some b ∧
       Py.int (Py.float_of_int ((line_color settings).1.2 * intensity) / 255)%float
         = Some g ∧
       Py.int (Py.float_of_int ((line_color settings).2 * intensity) / 255)%float
         = Some r ∧
       op = Line point1 point2 (b, g, r) 2).
Proof.
  intros H. apply proximity_lines_Some in H as [Htotal Hlines].
  assert (Hfrom : ∀ op, op ∈ lines ->
    ∃ box1 box2 intensity color,
      (box1, box2) ∈ pairs boxes ∧
      (distance (box_connection_point box1) (box_connection_point box2)
         <? Py.float_of_int (line_distance settings))%float = true ∧
      line_intensity settings
        (distance (box_connection_point box1) (box_connection_point box2))
        = Some intensity ∧
      scaled_line_color settings intensity = Some color ∧
      op = Line (box_connection_point box1) (box_connection_point box2) color 2).
  { intros op Hop. apply Hlines in Hop as (b1 & b2 & dr & Hpair & Hlink & Hop).
    apply link_Some in Hlink. cbn zeta in Hlink.
    destruct (_ <? _)%float eqn:Hlt.
    - destruct Hlink as (i & c & Hi & Hc & ->).
      apply elem_of_cons in Hop as [->|Hop]; [|now apply elem_of_nil in Hop].
      now exists b1, b2, i, c.
    - subst dr. now apply elem_of_nil in Hop. }
  split.
  - intros i j box1 box2 Hij Hi Hj. split.
    + intros [color Hop].
      apply Hfrom in Hop as (b1 & b2 & _ & _ & _ & Hlt & _ & _ & [= -> -> _]).
      exact Hlt.
    + intros Hlt.
      assert (Hpair : (box1, box2) ∈ pairs boxes)
        by (apply elem_of_pairs; now exists i, j).
      destruct (Htotal _ _ Hpair) as [dr Hlink].
      pose proof (link_Some _ _ _ _ Hlink) as Hdr. cbn zeta in Hdr.
      rewrite Hlt in Hdr. destruct Hdr as (intensity & c & _ & _ & ->).
      exists c. apply Hlines. eexists box1, box2, _.
      split; [exact Hpair|]. split; [exact Hlink|]. now left.
  - intros op Hop.
    apply Hfrom in Hop as (b1 & b2 & intensity & c & Hpair & Hlt & Hi & Hc & ->).
    apply elem_of_pairs in Hpair as (i & j & Hij & Hbi & Hbj).
    unfold scaled_line_color, scale_channel in Hc.
    destruct (line_color settings) as [[c0 c1] c2]. cbn [fst snd].
    destruct (Py.int (Py.float_of_int (c0 * intensity) / 255)) as [b|] eqn:Hb;
      cbn in Hc; [|discriminate].
    destruct (Py.int (Py.float_of_int (c1 * intensity) / 255)) as [g|] eqn:Hg;
      cbn in Hc; [|discriminate].
    destruct (Py.int (Py.float_of_int (c2 * intensity) / 255)) as [r|] eqn:Hr;
      cbn in Hc; [|discriminate].
    injection Hc as <-.
    exists i, j, b1, b2, intensity, b, g, r. repeat split; assumption.
Qed.




(** ** Completion *)





(** * Further properties *)

(** ** What a frame writes *)

Lemma process_contour_ops prev shape color settings max_speed contour acc acc' :
  process_contour prev shape color settings max_speed contour acc = Some acc' ->
  ∃ d heat_color text,
    recorded prev contour d ∧
    (heat_map settings = true ->
     get_heat_color (motion prev (center_of contour)).1 max_speed
       = Some heat_color) ∧
    text_area text = det_area d ∧
    (if (0 <? (motion prev (center_of contour)).1)%float
     then Some <$> Py.int (motion prev (center_of contour)).1 = Some (text_speed text)
     else text_speed text = None) ∧
    ops acc' = ops acc ++ blob_ops shape color settings contour heat_color text ∧
    frame_data acc' = frame_data acc ++ [d].
Proof.
  unfold process_contour, recorded, blob_ops, effects_of, center_of.
  destruct (boundingRect contour) as [[[x y] w] h].
  destruct (motion prev (x + w / 2, y + h / 2)) as [speed direction]; cbn [fst snd].
  intros H.
  destruct (heat_map settings).
  - destruct (get_heat_color speed max_speed) as [c|]; cbn in H; [|discriminate].
    destruct (Py.int (contourArea contour)) as [a|]; cbn in H; [|discriminate].
    destruct (0 <? speed)%float.
    + destruct (Py.int speed) as [s|]; cbn in H; [|discriminate].
      injection H as <-. cbn.
      eexists {| det_area := a |}, c, {| text_area := a |}. cbn.
      repeat split; reflexivity.
    + cbn in H. injection H as <-. cbn.
      eexists {| det_area := a |}, c, {| text_area := a |}. cbn.
      repeat split; reflexivity.
  - cbn in H.
    destruct (Py.int (contourArea contour)) as [a|]; cbn in H; [|discriminate].
    destruct (0 <? speed)%float.
    + destruct (Py.int speed) as [s|]; cbn in H; [|discriminate].
      injection H as <-. cbn.
      eexists {| det_area := a |}, color, {| text_area := a |}. cbn.
      repeat split; first [reflexivity | discriminate].
    + cbn in H. injection H as <-. cbn.
      eexists {| det_area := a |}, color, {| text_area := a |}. cbn.
      repeat split; first [reflexivity | discriminate].
Qed.

Lemma second_pass_ops prev shape color settings max_speed contours acc acc' :
  second_pass prev shape color settings max_speed contours acc = Some acc' ->
  ∃ results,
    Forall2 (blob_written prev shape color settings max_speed)
      (List.filter (retained settings) contours) results ∧
    frame_data acc' = frame_data acc ++ results.*1 ∧
    ops acc' = ops acc ++ concat results.*2.
Proof.
  revert acc. induction contours as [|contour rest IH]; intros acc H;
    cbn [second_pass List.filter] in *.
  - injection H as <-. exists []. cbn. rewrite !app_nil_r. repeat split. constructor.
  - destruct (retained settings contour); [|exact (IH _ H)].
    destruct (process_contour prev shape color settings max_speed contour acc)
      as [acc1|] eqn:Hstep; cbn in H; [|discriminate].
    apply process_contour_ops in Hstep
      as (d & hc & text & Hd & Hheat & Harea & Hspeed & Hops & Hdata).
    destruct (IH _ H) as (results & Hall & Hdata' & Hops').
    exists ((d, blob_ops shape color settings contour hc text) :: results).
    split; [|cbn; rewrite Hdata', Hdata, Hops', Hops, <- !app_assoc; split; reflexivity].
    constructor; [|exact Hall]. split; [exact Hd|]. now exists hc, text.
Qed.

(** X2. The writes of a completed frame are, for each retained contour in
    turn, the region of interest with its overlays, then the box, then the
    label, and after all of them the proximity lines; the records come in
    the same order, one for each such group. *)
Theorem frame_writes_blob_by_blob
    self shape contours color settings self' ops' data :
  process_frame self shape contours color settings = Some (self', ops', data) ->
  ∃ results lines,
    Forall2
      (blob_written (prev_centers self) shape color settings
         (first_pass (prev_centers self) settings contours))
      (List.filter (retained settings) contours) results ∧
    data = results.*1 ∧
    ops' = concat results.*2 ++ lines ∧
    if show_lines settings
    then proximity_lines settings
           (box_of settings <$> List.filter (retained settings) contours)
         = Some lines
    else lines = [].
Proof.
  intros H.
  apply process_frame_Some in H as (acc & lines & Hacc & Hlines & _ & -> & ->).
  pose proof (second_pass_Some _ _ _ _ _ _ _ _ Hacc) as (_ & _ & _ & Hboxes & _).
  apply second_pass_ops in Hacc as (results & Hall & Hdata & Hops).
  exists results, lines. cbn in Hdata, Hops, Hboxes.
  rewrite Hdata, Hops. repeat split; [exact Hall|].
  now rewrite Hboxes in Hlines.
Qed.

Lemma frame_writes_blob_by_blob_witness :
  let self := {| prev_centers := {[ (30, 20) := (27, 16) ]}; next_id := 0 |} in
  ∃ (results : list (Detection * list FrameOp)) (lines : list FrameOp),
    Forall2
      (blob_written (prev_centers self) (480, 640) (0, 0, 0) default_settings
         (first_pass (prev_centers self) default_settings
            [contour_800; contour_200]))
      (List.filter (retained default_settings) [contour_800; contour_200])
      results ∧
    length results = 1%nat ∧ length lines = 0%nat.
Proof.
  intros self.
  destruct (process_frame self (480, 640) [contour_800; contour_200] (0, 0, 0)
              default_settings) as [[[self' ops'] data]|] eqn:H.
  - destruct (frame_writes_blob_by_blob _ _ _ _ _ _ _ _ H)
      as (results & lines & Hall & Hdata & Hops & Hlines).
    exists results, lines. split; [exact Hall|].
    vm_compute in Hlines. injection Hlines as <-.
    apply Forall2_length in Hall. rewrite <- Hall. split; reflexivity.
  - vm_compute in H. discriminate.
Defined.

(** X3. A frame in which no contour is retained (in particular a frame
    without contours) writes nothing, records nothing and leaves the
    tracker without any stored centre, whatever it held before. *)
Theorem frame_without_blobs self shape contours color settings :
  (∀ contour, contour ∈ contours -> retained settings contour = false) ->
  process_frame self shape contours color settings
  = Some ({| prev_centers := ∅; next_id := next_id self |}, [], []).
Proof.
  intros Hnone. unfold process_frame.
  assert (Hpass : ∀ max_speed acc,
            second_pass (prev_centers self) shape color settings max_speed
              contours acc = Some acc).
  { intros max_speed. induction contours as [|c rest IH]; intros acc; [reflexivity|].
    cbn [second_pass]. rewrite (Hnone c) by now left.
    apply IH. intros c' Hc'. apply Hnone. now right. }
  rewrite Hpass. cbn. destruct (show_lines settings); reflexivity.
Qed.

Lemma frame_without_blobs_witness :
  process_frame {| prev_centers := {[ (30, 20) := (30, 20) ]}; next_id := 0 |}
    (480, 640) [contour_200; contour_500] (0, 0, 0) default_settings
  = Some ({| prev_centers := ∅; next_id := 0 |}, [], []).
Proof.
  apply (frame_without_blobs
           {| prev_centers := {[ (30, 20) := (30, 20) ]}; next_id := 0 |}).
  intros contour Hin.
  apply elem_of_cons in Hin as [->|Hin]; [reflexivity|].
  apply elem_of_cons in Hin as [->|Hin]; [reflexivity|].
  now apply elem_of_nil in Hin.
Defined.

(** ** Frames of a run *)

Lemma blob_ops_without_heat shape color settings contour c1 c2 text :
  heat_map settings = false ->
  blob_ops shape color settings contour c1 text
  = blob_ops shape color settings contour c2 text.
Proof.
  intros Hheat. unfold blob_ops, effects_of. now rewrite Hheat.
Qed.

Lemma blob_written_still prev shape color settings contour r :
  fixed_points prev ->
  blob_written prev shape color settings 0 contour r ->
  recorded prev contour r.1 ∧ det_speed r.1 = 0%float ∧
  r.2 = still_blob_ops shape color settings contour r.1.
Proof.
  intros Hfix (Hrec & hc & text & Hheat & Harea & Hspeed & Hops).
  pose proof Hrec as (_ & _ & Hs & _).
  rewrite (motion_fixed_points _ _ Hfix) in Hheat, Hspeed, Hs. cbn [fst] in *.
  change (0 <? 0)%float with false in Hspeed.
  split; [exact Hrec|]. split; [exact Hs|].
  rewrite Hops. unfold still_blob_ops.
  destruct text as [a s]. cbn in Harea, Hspeed. subst a s.
  destruct (heat_map settings) eqn:Hmap.
  - specialize (Hheat eq_refl). change (get_heat_color 0 0) with (Some pure_blue) in Hheat.
    now injection Hheat as <-.
  - now apply blob_ops_without_heat.
Qed.

Lemma still_results prev shape color settings (contours : list Contour)
    (results : list (Detection * list FrameOp)) :
  fixed_points prev ->
  Forall2 (blob_written prev shape color settings 0) contours results ->
  concat results.*2
  = concat (zip_with (still_blob_ops shape color settings) contours results.*1) ∧
  Forall (fun d => det_speed d = 0%float) results.*1.
Proof.
  intros Hfix Hall. induction Hall as [|c r cs rs Hr _ [IH1 IH2]]; [split; [reflexivity|constructor]|].
  apply (blob_written_still _ _ _ _ _ _ Hfix) in Hr as (_ & Hs & Hops).
  cbn. rewrite Hops, IH1. split; [reflexivity|]. now constructor.
Qed.

(** With every centre stored under itself, the writes of a frame are
    those of blobs at rest. *)
Lemma fixed_points_frame_ops self shape contours color settings self' ops' data :
  fixed_points (prev_centers self) ->
  process_frame self shape contours color settings = Some (self', ops', data) ->
  ∃ lines,
    ops' = concat (zip_with (still_blob_ops shape color settings)
                     (List.filter (retained settings) contours) data)
           ++ lines ∧
    if show_lines settings
    then proximity_lines settings
           (box_of settings <$> List.filter (retained settings) contours)
         = Some lines
    else lines = [].
Proof.
  intros Hfix H.
  apply process_frame_Some in H as (acc & lines & Hacc & Hlines & _ & -> & ->).
  pose proof (second_pass_Some _ _ _ _ _ _ _ _ Hacc) as (_ & _ & _ & Hboxes & _).
  apply second_pass_ops in Hacc as (results & Hall & Hdata & Hops).
  cbn in Hdata, Hops, Hboxes. rewrite Hdata, Hops.
  rewrite (first_pass_fixed_points _ _ _ Hfix) in Hall.
  exists lines. split; [|now rewrite Hboxes in Hlines].
  now rewrite (proj1 (still_results _ _ _ _ _ _ Hfix Hall)).
Qed.

(** X4. In every state a run can reach, all a frame writes for a blob is
    fixed by the contour, the box colour and the settings: the overlays of
    its region, with pure blue as the heat colour, the box in pure blue
    under [heat_map] and in the box colour otherwise, and a label with the
    area alone. *)
Theorem reachable_frame_is_drawn_still
    self shape contours color settings self' ops' data :
  reachable self ->
  process_frame self shape contours color settings = Some (self', ops', data) ->
  ∃ lines,
    ops' = concat (zip_with (still_blob_ops shape color settings)
                     (List.filter (retained settings) contours) data)
           ++ lines ∧
    if show_lines settings
    then proximity_lines settings
           (box_of settings <$> List.filter (retained settings) contours)
         = Some lines
    else lines = [].
Proof.
  intros Hreach. apply fixed_points_frame_ops, reachable_fixed_points, Hreach.
Qed.

Lemma reachable_frame_is_drawn_still_witness :
  ∃ ops' lines,
    snd <$> (fst <$> process_frame init (480, 640) [contour_800; contour_200]
                       (0, 0, 0) default_settings) = Some ops' ∧
    ops' = still_blob_ops (480, 640) (0, 0, 0) default_settings contour_800
             {| det_area := 800; det_position := (10, 10, 40, 20);
                det_speed := 0; det_direction := "N/A" |} ++ lines.
Proof.
  destruct (process_frame init (480, 640) [contour_800; contour_200] (0, 0, 0)
              default_settings) as [[[self' ops'] data]|] eqn:H.
  - destruct (reachable_frame_is_drawn_still _ _ _ _ _ _ _ _ reachable_init H)
      as (lines & Hops & _).
    exists ops', lines. split; [reflexivity|]. rewrite Hops.
    vm_compute in H. injection H as _ _ <-.
    cbn [List.filter zip_with concat]. cbn. rewrite ?app_nil_r. reflexivity.
  - vm_compute in H. discriminate.
Defined.

Lemma draw_box_strokes shape x y w h color settings op :
  op ∈ draw_box shape x y w h color settings ->
  (∃ pt1 pt2, op = Rectangle pt1 pt2 color (box_thickness settings)) ∨
  (∃ pt1 pt2, op = Line pt1 pt2 color (box_thickness settings)) ∨
  (∃ center, op = Circle center (box_thickness settings / 2) color).
Proof.
  unfold draw_box. destruct (padded_box shape x y w h settings) as [[[x' y'] w'] h'].
  intros Hop.
  destruct (String.eqb (box_style settings) "solid");
    [|destruct (String.eqb (box_style settings) "dashed");
      [|destruct (String.eqb (box_style settings) "dotted")]];
    destruct (box_corners settings);
    repeat match goal with
    | H : _ ∈ _ ++ _ |- _ => apply elem_of_app in H as [H|H]
    | H : _ ∈ mbind _ _ |- _ => apply list_elem_of_bind in H as (? & H & _)
    | H : _ ∈ _ :: _ |- _ => apply elem_of_cons in H as [->|H]
    | H : _ ∈ [] |- _ => apply elem_of_nil in H; contradiction
    end; eauto.
Qed.

Lemma elem_of_concat_zip_with {A B C : Type} (f : A -> B -> list C)
    (l : list A) (k : list B) (x : C) :
  x ∈ concat (zip_with f l k) -> ∃ a b, a ∈ l ∧ b ∈ k ∧ x ∈ f a b.
Proof.
  revert k. induction l as [|a l IH]; intros [|b k] Hx; cbn in Hx;
    try (now apply elem_of_nil in Hx).
  apply elem_of_app in Hx as [Hx|Hx].
  - exists a, b. repeat split; [now left | now left | exact Hx].
  - destruct (IH _ Hx) as (a' & b' & Ha & Hb & Hx').
    exists a', b'. repeat split; [now right | now right | exact Hx'].
Qed.

(** X5. In every state a run can reach, no label of a frame carries a
    speed, every heat overlay is pure blue, and every rectangle and dot of a
    box is pure blue under [heat_map] and has the box colour otherwise. *)
Theorem reachable_frame_shows_no_motion
    self shape contours color settings self' ops' data :
  reachable self ->
  process_frame self shape contours color settings = Some (self', ops', data) ->
  ∀ op, op ∈ ops' ->
    match op with
    | PutText text _ _ _ => text_speed text = None
    | WriteRoi _ _ _ _ effects =>
        ∀ heat_color alpha, Heat heat_color alpha ∈ effects -> heat_color = pure_blue
    | Rectangle _ _ c _ | Circle _ _ c =>
        c = if heat_map settings then pure_blue else color
    | Line _ _ _ _ => True
    end.
Proof.
  intros Hreach H.
  pose proof (fixed_points_frame_ops _ _ _ _ _ _ _ _
                (reachable_fixed_points _ Hreach) H)
    as (lines & -> & Hlines).
  intros op Hop. apply elem_of_app in Hop as [Hop|Hop].
  - apply elem_of_concat_zip_with in Hop as (c & d & _ & _ & Hop).
    unfold still_blob_ops, blob_ops in Hop.
    destruct (boundingRect c) as [[[x y] w] h].
    apply elem_of_cons in Hop as [->|Hop].
    + intros hc alpha Hin. unfold effects_of in Hin.
      destruct (negative_effect settings), (heat_map settings),
        (edge_detection settings); cbn in Hin;
        repeat match goal with
        | H : _ ∈ _ :: _ |- _ => apply elem_of_cons in H as [H|H]
        | H : _ ∈ [] |- _ => apply elem_of_nil in H; contradiction
        end; congruence.
    + apply elem_of_app in Hop as [Hop|Hop].
      * apply draw_box_strokes in Hop
          as [(? & ? & ->)|[(? & ? & ->)|(? & ->)]]; auto.
      * apply elem_of_cons in Hop as [->|Hop]; [reflexivity|].
        now apply elem_of_nil in Hop.
  - destruct (show_lines settings); [|subst lines; now apply elem_of_nil in Hop].
    apply proximity_lines_close in Hlines as [_ Hcolor].
    destruct (Hcolor op Hop) as (? & ? & ? & ? & ? & ? & ? & ? & _ & _ & _ & Hop').
    cbn zeta in Hop'. destruct Hop' as (_ & _ & _ & _ & _ & ->). exact I.
Qed.

Lemma reachable_frame_shows_no_motion_witness :
  ∃ ops',
    snd <$> (fst <$> process_frame init (480, 640) [contour_800; contour_500]
                       (0, 0, 0) default_settings) = Some ops' ∧
    ∀ op, op ∈ ops' ->
      match op with
      | PutText text _ _ _ => text_speed text = None
      | WriteRoi _ _ _ _ effects =>
          ∀ heat_color alpha,
            Heat heat_color alpha ∈ effects -> heat_color = pure_blue
      | Rectangle _ _ c _ | Circle _ _ c => c = pure_blue
      | Line _ _ _ _ => True
      end.
Proof.
  destruct (process_frame init (480, 640) [contour_800; contour_500] (0, 0, 0)
              default_settings) as [[[self' ops'] data]|] eqn:H.
  - exists ops'. split; [reflexivity|].
    exact (reachable_frame_shows_no_motion _ _ _ _ _ _ _ _ reachable_init H).
  - vm_compute in H. discriminate.
Defined.

Lemma recorded_same_measurements prev1 prev2 (contours : list Contour) data1 data2 :
  fixed_points prev1 -> fixed_points prev2 ->
  Forall2 (recorded prev1) contours data1 ->
  Forall2 (recorded prev2) contours data2 ->
  Forall2 same_measurements data1 data2.
Proof.
  intros Hfix1 Hfix2 H1. revert data2.
  induction H1 as [|c d1 cs ds1 (Ha1 & Hp1 & Hs1 & _) _ IH]; intros data2 H2;
    inversion H2 as [|? d2 ? ds2 (Ha2 & Hp2 & Hs2 & _) H2']; subst; constructor.
  - rewrite (motion_fixed_points _ _ Hfix1) in Hs1.
    rewrite (motion_fixed_points _ _ Hfix2) in Hs2.
    unfold same_measurements. rewrite Hp1, Hp2, Hs1, Hs2.
    repeat split. congruence.
  - now apply IH.
Qed.

Lemma still_blob_ops_same shape color settings (contours : list Contour) data1 data2 :
  Forall2 same_measurements data1 data2 ->
  zip_with (still_blob_ops shape color settings) contours data1
  = zip_with (still_blob_ops shape color settings) contours data2.
Proof.
  intros Hsame. revert contours.
  induction Hsame as [|d1 d2 ds1 ds2 (Ha & _ & _) _ IH]; intros [|c cs];
    try reflexivity.
  cbn. rewrite IH. unfold still_blob_ops. now rewrite Ha.
Qed.

(** X6. What a frame shows does not depend on the frames before it: from
    any two states a run can reach, the same contours under the same
    settings give the same writes, the same stored centres and records
    with the same area, position and speed. *)
Theorem frame_ignores_history
    self1 self2 shape contours color settings self1' ops1 data1 self2' ops2 data2 :
  reachable self1 -> reachable self2 ->
  process_frame self1 shape contours color settings = Some (self1', ops1, data1) ->
  process_frame self2 shape contours color settings = Some (self2', ops2, data2) ->
  ops1 = ops2 ∧
  prev_centers self1' = prev_centers self2' ∧
  Forall2 same_measurements data1 data2.
Proof.
  intros Hr1 Hr2 H1 H2.
  pose proof (reachable_fixed_points _ Hr1) as Hfix1.
  pose proof (reachable_fixed_points _ Hr2) as Hfix2.
  destruct (fixed_points_frame_ops _ _ _ _ _ _ _ _ Hfix1 H1)
    as (lines1 & -> & Hl1).
  destruct (fixed_points_frame_ops _ _ _ _ _ _ _ _ Hfix2 H2)
    as (lines2 & -> & Hl2).
  apply process_frame_records in H1 as (Hd1 & -> & _).
  apply process_frame_records in H2 as (Hd2 & -> & _).
  pose proof (recorded_same_measurements _ _ _ _ _ Hfix1 Hfix2 Hd1 Hd2) as Hsame.
  split; [|split; [reflexivity | exact Hsame]].
  rewrite (still_blob_ops_same _ _ _ _ _ _ Hsame). f_equal.
  destruct (show_lines settings); congruence.
Qed.

Lemma frame_ignores_history_witness :
  let self2 := {| prev_centers := {[ (30, 20) := (30, 20) ]}; next_id := 0 |} in
  ∃ self1' ops1 data1 self2' ops2 data2,
    process_frame init (480, 640) [contour_800] (0, 0, 0) default_settings
      = Some (self1', ops1, data1) ∧
    process_frame self2 (480, 640) [contour_800] (0, 0, 0) default_settings
      = Some (self2', ops2, data2) ∧
    ops1 = ops2 ∧
    det_direction <$> data1 = ["N/A"] ∧ det_direction <$> data2 = ["Up"].
Proof.
  intros self2.
  destruct (process_frame init (480, 640) [contour_800] (0, 0, 0)
              default_settings) as [[[self1' ops1] data1]|] eqn:H1;
    [|vm_compute in H1; discriminate].
  assert (Hreach : reachable self2).
  { apply (reachable_frame init (480, 640) [contour_800] (0, 0, 0)
             default_settings self2 ops1 data1 reachable_init).
    rewrite H1. vm_compute in H1. injection H1 as <- <- <-. reflexivity. }
  destruct (process_frame self2 (480, 640) [contour_800] (0, 0, 0)
              default_settings) as [[[self2' ops2] data2]|] eqn:H2;
    [|vm_compute in H2; discriminate].
  exists self1', ops1, data1, self2', ops2, data2.
  split; [reflexivity|]. split; [reflexivity|].
  split; [exact (proj1 (frame_ignores_history _ _ _ _ _ _ _ _ _ _ _ _
                          reachable_init Hreach H1 H2))|].
  vm_compute in H1, H2. injection H1 as _ _ <-. injection H2 as _ _ <-.
  split; reflexivity.
Defined.



(** ** Lines and boxes *)

Lemma distance_sym point1 point2 : distance point1 point2 = distance point2 point1.
Proof.
  unfold distance. f_equal.
  rewrite !Z.pow_2_r. ring.
Qed.

(** X8. The line between two boxes does not depend on which of them comes
    first: exchanging them exchanges the end points of the line and changes
    neither whether it is drawn nor its colour. *)
Theorem link_is_symmetric settings box1 box2 :
  link settings box2 box1
  = (fun drawn : list FrameOp => reverse_line <$> drawn) <$> link settings box1 box2.
Proof.
  unfold link. cbn zeta.
  rewrite (distance_sym (box_connection_point box2) (box_connection_point box1)).
  destruct (_ <? _)%float; [|reflexivity].
  destruct (line_intensity _ _) as [intensity|]; [|reflexivity]. cbn.
  destruct (scaled_line_color _ _) as [color|]; reflexivity.
Qed.

Lemma length_pairs {A : Type} (l : list A) :
  (2 * length (pairs l) = length l * (length l - 1))%nat.
Proof.
  induction l as [|a l IH]; [reflexivity|].
  cbn [pairs length]. rewrite length_app, length_fmap. nia.
Qed.

Lemma links_from_length settings box1 others lines :
  links_from settings box1 others = Some lines ->
  (length lines <= length others)%nat.
Proof.
  revert lines. induction others as [|box2 rest IH]; intros lines; cbn [links_from].
  - intros [= <-]. reflexivity.
  - destruct (link settings box1 box2) as [l|] eqn:Hl; cbn; [|discriminate].
    destruct (links_from settings box1 rest) as [ls|]; cbn; [|discriminate].
    intros [= <-]. specialize (IH _ eq_refl).
    apply link_Some in Hl. cbn zeta in Hl.
    destruct (_ <? _)%float.
    + destruct Hl as (? & ? & _ & _ & ->). rewrite length_app. cbn. lia.
    + subst l. cbn. lia.
Qed.

(** X9. A frame with n boxes gets at most n (n - 1) / 2 proximity lines,
    one for a pair at most; with fewer than two boxes it gets none. *)
Theorem proximity_lines_count settings boxes lines :
  proximity_lines settings boxes = Some lines ->
  (2 * length lines <= length boxes * (length boxes - 1))%nat.
Proof.
  rewrite <- length_pairs. revert lines.
  induction boxes as [|box1 rest IH]; intros lines; cbn [proximity_lines pairs].
  - intros [= <-]. reflexivity.
  - destruct (links_from settings box1 rest) as [l|] eqn:Hl; cbn; [|discriminate].
    destruct (proximity_lines settings rest) as [ls|]; cbn; [|discriminate].
    intros [= <-]. specialize (IH _ eq_refl).
    apply links_from_length in Hl.
    rewrite !length_app, length_fmap. lia.
Qed.

Lemma proximity_lines_count_witness :
  ∃ lines,
    proximity_lines default_settings
      [box_at (30, 20); box_at (130, 20); box_at (400, 300)] = Some lines ∧
    (2 * length lines <= 3 * (3 - 1))%nat ∧ length lines = 1%nat.
Proof.
  destruct (proximity_lines default_settings
              [box_at (30, 20); box_at (130, 20); box_at (400, 300)])
    as [lines|] eqn:H; [|vm_compute in H; discriminate].
  exists lines. split; [reflexivity|].
  split; [exact (proximity_lines_count _ _ _ H)|].
  vm_compute in H. now injection H as <-.
Defined.

(** X10. For a bounding rectangle inside the frame and a padding that is
    not negative, the padded box contains the rectangle; where the padding
    fits into the frame the box is the rectangle grown by the padding on
    both sides; and where the padding is cut at the left or the top, what
    is cut is added at the right or the bottom, as far as the frame goes. *)
Theorem padded_box_expansion shape x y w h settings :
  inside shape x y w h ->
  0 <= box_padding settings ->
  let p := box_padding settings in
  let '(x', y', w', h') := padded_box shape x y w h settings in
  (x' <= x ∧ y' <= y ∧ x + w <= x' + w' ∧ y + h <= y' + h') ∧
  (p <= x -> x + w + p <= shape.2 -> x' = x - p ∧ w' = w + 2 * p) ∧
  (p <= y -> y + h + p <= shape.1 -> y' = y - p ∧ h' = h + 2 * p) ∧
  (x < p -> x' = 0 ∧ x' + w' = Z.min shape.2 (x + w + p + (p - x))) ∧
  (y < p -> y' = 0 ∧ y' + h' = Z.min shape.1 (y + h + p + (p - y))).
Proof.
  intros (Hx & Hy & Hw & Hh & Hxw & Hyh) Hpad.
  unfold padded_box. destruct shape as [height width]. cbn [fst snd] in *.
  cbn zeta. repeat split; lia.
Qed.

Lemma padded_box_expansion_witness :
  let settings := set_box "solid" false 5 default_settings in
  let '(x', y', w', h') := padded_box (480, 640) 100 3 40 20 settings in
  (x' <= 100 ∧ y' <= 3 ∧ 100 + 40 <= x' + w' ∧ 3 + 20 <= y' + h') ∧
  (5 <= 100 -> 100 + 40 + 5 <= 640 -> x' = 100 - 5 ∧ w' = 40 + 2 * 5) ∧
  (5 <= 3 -> 3 + 20 + 5 <= 480 -> y' = 3 - 5 ∧ h' = 20 + 2 * 5) ∧
  (100 < 5 -> x' = 0 ∧ x' + w' = Z.min 640 (100 + 40 + 5 + (5 - 100))) ∧
  (3 < 5 -> y' = 0 ∧ y' + h' = Z.min 480 (3 + 20 + 5 + (5 - 3))).
Proof.
  intros settings.
  apply (padded_box_expansion (480, 640) 100 3 40 20 settings).
  - unfold inside; simpl; lia.
  - simpl; lia.
Defined.

(** X11. For a bounding rectangle inside the frame and a padding that is
    not negative, every point [draw_box] hands to a drawing call, for the
    outline in any style and for the corner accents, lies on the outline
    of the padded box. *)
Theorem box_is_drawn_on_its_outline shape x y w h color settings :
  inside shape x y w h ->
  0 <= box_padding settings ->
  ∀ op p,
    op ∈ draw_box shape x y w h color settings ->
    p ∈ op_points op ->
    on_outline (padded_box shape x y w h settings) p.
Proof.
  intros (Hx & Hy & Hw & Hh & Hxw & Hyh) Hpad.
  unfold draw_box, padded_box, on_outline.
  destruct shape as [height width]. cbn [fst snd] in *.
  set (x' := Z.max 0 (x - box_padding settings)).
  set (y' := Z.max 0 (y - box_padding settings)).
  set (w' := Z.min (width - x') (w + 2 * box_padding settings)).
  set (h' := Z.min (height - y') (h + 2 * box_padding settings)).
  assert (Hbox : 0 <= w' ∧ 0 <= h') by lia.
  assert (Hc : 0 <= Z.min w' h' / 4 <= Z.min w' h').
  { split; [apply Z.div_pos; lia|].
    apply Z.div_le_upper_bound; lia. }
  clearbody x' y' w' h'. intros op p Hop Hp.
  destruct (String.eqb (box_style settings) "solid");
    [|destruct (String.eqb (box_style settings) "dashed");
      [|destruct (String.eqb (box_style settings) "dotted")]];
    destruct (box_corners settings);
    box_points; cbn [op_points] in Hp; box_points; cbn [fst snd]; lia.
Qed.

Lemma box_is_drawn_on_its_outline_witness :
  let settings := set_box "dotted" true 4 default_settings in
  Forall (fun op => Forall (on_outline (96, 0, 48, 28)) (op_points op))
    (draw_box (480, 640) 100 3 40 20 (0, 0, 0) settings).
Proof.
  intros settings.
  apply Forall_forall. intros op Hop. apply Forall_forall. intros p Hp.
  try apply list_elem_of_In in Hop. try apply list_elem_of_In in Hp.
  apply (box_is_drawn_on_its_outline (480, 640) 100 3 40 20 (0, 0, 0) settings
           ltac:(unfold inside; simpl; lia) ltac:(simpl; lia) op p Hop Hp).
Defined.

(** X12. In the dashed style without corner accents [draw_box] draws
    lines only, each of them horizontal or vertical and from 1 to 10
    pixels long, in the given colour and thickness. *)
Theorem dashes_are_short shape x y w h color settings :
  box_style settings = "dashed" ->
  box_corners settings = false ->
  ∀ op, op ∈ draw_box shape x y w h color settings ->
    ∃ pt1 pt2,
      op = Line pt1 pt2 color (box_thickness settings) ∧
      short_stroke 10 pt1 pt2.
Proof.
  intros Hstyle Hcorners op. unfold draw_box, short_stroke.
  destruct (padded_box shape x y w h settings) as [[[x' y'] w'] h'].
  rewrite Hstyle, Hcorners. cbn [String.eqb Ascii.eqb Bool.eqb].
  rewrite app_nil_r. intros Hop.
  box_points; eexists _, _; (split; [reflexivity|]); cbn [fst snd]; lia.
Qed.

Lemma dashes_are_short_witness :
  let settings := set_box "dashed" false 0 default_settings in
  Forall
    (fun op => ∃ pt1 pt2,
       op = Line pt1 pt2 (0, 0, 0) (box_thickness settings) ∧
       short_stroke 10 pt1 pt2)
    (draw_box (480, 640) 100 3 45 20 (0, 0, 0) settings).
Proof.
  intros settings.
  apply Forall_forall. intros op Hop. try apply list_elem_of_In in Hop.
  exact (dashes_are_short (480, 640) 100 3 45 20 (0, 0, 0) settings
           eq_refl eq_refl op Hop).
Defined.

(** ** Heat colours beyond the breakpoints *)

Lemma div_nan_l (y : float) : (nan / y)%float = nan.
Proof.
  apply Prim2SF_inj. rewrite div_spec.
  change (Prim2SF nan) with S754_nan. reflexivity.
Qed.

Lemma div_nan_r (x : float) : (x / nan)%float = nan.
Proof.
  apply Prim2SF_inj. rewrite div_spec.
  change (Prim2SF nan) with S754_nan.
  unfold SF64div, SFdiv. destruct (Prim2SF x); reflexivity.
Qed.

(** A float that 1 is not below and not above is 1. *)
Lemma one_of_leb_not_ltb (r : float) :
  (1 <=? r)%float = true -> (1 <? r)%float = false -> r = 1%float.
Proof.
  rewrite leb_spec, ltb_spec. intros Hle Hlt.
  apply Prim2SF_inj. revert Hle Hlt.
  change (Prim2SF 1) with (S754_finite false 4503599627370496 (-52)).
  unfold SFleb, SFltb.
  destruct (Prim2SF r) as [[]|[]| |[] m e]; try discriminate.
  cbv beta iota delta [SFcompare].
  destruct (Z.compare_spec (-52) e) as [<-| |]; try discriminate.
  change (Pos.compare_cont Eq 4503599627370496 m)
    with (Pos.compare 4503599627370496 m).
  destruct (Pos.compare_spec 4503599627370496 m) as [<-| |]; try discriminate.
  reflexivity.
Qed.

(** X13. A speed at or above the maximal speed gives pure red: the ratio
    is cut at 1. *)
Theorem heat_color_saturates speed max_speed :
  (max_speed =? 0)%float = false ->
  (1 <=? speed / max_speed)%float = true ->
  get_heat_color speed max_speed = Some pure_red.
Proof.
  intros Hmax Hratio. unfold get_heat_color. rewrite Hmax.
  assert (Hmin : Py.min (speed / max_speed) 1 = 1%float).
  { unfold Py.min. destruct (1 <? speed / max_speed)%float eqn:Hlt; [reflexivity|].
    now apply one_of_leb_not_ltb. }
  rewrite Hmin. reflexivity.
Qed.

Lemma heat_color_saturates_witness :
  get_heat_color 7 4 = Some pure_red ∧ get_heat_color 4 4 = Some pure_red.
Proof.
  split; apply heat_color_saturates; reflexivity.
Defined.

(** X14. With a maximal speed other than 0, a speed or a maximal speed
    that is not a number makes [get_heat_color] raise: the ratio is not a
    number, falls through every comparison and reaches [int]. *)
Theorem heat_color_of_nan_raises :
  (∀ max_speed,
     (max_speed =? 0)%float = false -> get_heat_color nan max_speed = None) ∧
  (∀ speed, get_heat_color speed nan = None).
Proof.
  split.
  - intros max_speed Hmax. unfold get_heat_color.
    rewrite Hmax, div_nan_l. reflexivity.
  - intros speed. unfold get_heat_color.
    change (nan =? 0)%float with false. rewrite div_nan_r. reflexivity.
Qed.

Lemma heat_color_of_nan_raises_witness :
  get_heat_color nan 3 = None.
Proof.
  apply (proj1 heat_color_of_nan_raises). reflexivity.
Defined.

(** ** Output files *)

Lemma string_app_nil (t : string) : "" +:+ t = t.
Proof. reflexivity. Qed.

Lemma string_app_cons (c : ascii) (s t : string) :
  String c s +:+ t = String c (s +:+ t).
Proof. reflexivity. Qed.

Lemma string_app_assoc (s1 s2 s3 : string) :
  (s1 +:+ s2) +:+ s3 = s1 +:+ s2 +:+ s3.
Proof.
  induction s1 as [|c s1 IH]; [reflexivity|].
  now rewrite !string_app_cons, IH.
Qed.

Lemma string_length_app (s1 s2 : string) :
  String.length (s1 +:+ s2) = (String.length s1 + String.length s2)%nat.
Proof.
  induction s1 as [|c s1 IH]; [reflexivity|].
  rewrite string_app_cons. cbn [String.length]. now rewrite IH.
Qed.

Lemma string_app_inj_r (s1 s2 t : string) : s1 +:+ t = s2 +:+ t -> s1 = s2.
Proof.
  revert s2. induction s1 as [|c s1 IH]; intros [|c2 s2] H;
    rewrite ?string_app_cons, ?string_app_nil in H.
  - reflexivity.
  - apply (f_equal String.length) in H. cbn [String.length] in H.
    rewrite string_length_app in H. lia.
  - apply (f_equal String.length) in H. cbn [String.length] in H.
    rewrite string_length_app in H. lia.
  - injection H as -> H. now rewrite (IH _ H).
Qed.

Lemma output_name_inj base_path : Inj (=) (=) (output_name base_path).
Proof.
  intros c1 c2 H. unfold output_name in H.
  apply (inj (String.append base_path)) in H.
  apply (inj (String.append "_")) in H.
  apply string_app_inj_r in H. now apply (inj pretty.pretty) in H.
Qed.

(** Among the first [size existing + 1] names one does not exist. *)
Lemma free_output_name (existing : gset string) base_path (start : Z) :
  ∃ counter, start <= counter <= start + Z.of_nat (size existing) ∧
             output_name base_path counter ∉ existing.
Proof.
  destruct (decide (Forall (fun c => output_name base_path c ∈ existing)
                      (seqZ start (Z.of_nat (S (size existing)))))) as [Hall|Hex].
  - exfalso.
    assert (Hsub : list_to_set (output_name base_path <$>
                      seqZ start (Z.of_nat (S (size existing)))) ⊆ existing).
    { intros p Hp. apply elem_of_list_to_set, list_elem_of_fmap in Hp
        as (c & -> & Hc). rewrite Forall_forall in Hall.
      first [now apply Hall | apply Hall; now apply list_elem_of_In]. }
    apply subseteq_size in Hsub.
    rewrite size_list_to_set in Hsub.
    + rewrite length_fmap, length_seqZ in Hsub. lia.
    + apply (@NoDup_fmap_2 _ _ _ (output_name_inj base_path)), NoDup_seqZ.
  - apply not_Forall_Exists in Hex; [|intros c; apply _].
    apply Exists_exists in Hex as (c & Hc & Hfree).
    apply list_elem_of_In, elem_of_seqZ in Hc. exists c. split; [lia | exact Hfree].
Qed.

Lemma next_output_path_from_least existing base_path fuel counter free :
  counter <= free ->
  (Z.to_nat (free - counter) < fuel)%nat ->
  output_name base_path free ∉ existing ->
  (∀ c, counter <= c < free -> output_name base_path c ∈ existing) ->
  next_output_path_from existing base_path fuel counter =
  Some (output_name base_path free).
Proof.
  revert counter. induction fuel as [|fuel IH]; intros counter Hle Hfuel Hfree Hused;
    [lia|].
  cbn [next_output_path_from]. cbn zeta.
  destruct (decide (counter = free)) as [->|Hne].
  - now rewrite decide_False.
  - rewrite decide_True by (apply Hused; lia).
    apply IH; [lia | lia | exact Hfree |]. intros c Hc. apply Hused. lia.
Qed.

(** X15. [get_next_output_path] returns the name with the least counter,
    from 1, that does not exist yet: it never names an existing file, and
    it ends within one turn more than there are existing paths. *)
Theorem get_next_output_path_is_fresh (existing : gset string) fuel base_path :
  (size existing < fuel)%nat ->
  ∃ counter,
    1 <= counter <= 1 + Z.of_nat (size existing) ∧
    (get_next_output_path existing fuel base_path
     = Some (output_name base_path counter)) ∧
    (output_name base_path counter ∉ existing) ∧
    ∀ c, 1 <= c < counter -> output_name base_path c ∈ existing.
Proof.
  intros Hfuel.
  (* the least free counter *)
  assert (Hleast : ∀ n : nat, ∀ start,
            (∃ c, start <= c < start + Z.of_nat n ∧
                  output_name base_path c ∉ existing) ->
            ∃ c, start <= c < start + Z.of_nat n ∧
                 (output_name base_path c ∉ existing) ∧
                 ∀ c', start <= c' < c -> output_name base_path c' ∈ existing).
  { induction n as [|n IH]; intros start (c & Hc & Hfree); [lia|].
    destruct (decide (output_name base_path start ∈ existing)) as [Hin|Hnin].
    - destruct (IH (start + 1)) as (c' & Hc' & Hfree' & Hused).
      + exists c. split; [|exact Hfree].
        destruct (decide (c = start)) as [->|]; [contradiction | lia].
      + exists c'. split; [lia|]. split; [exact Hfree'|].
        intros c'' Hc''. destruct (decide (c'' = start)) as [->|]; [exact Hin|].
        apply Hused. lia.
    - exists start. split; [lia|]. split; [exact Hnin|]. intros; lia. }
  destruct (free_output_name existing base_path 1) as (c0 & Hc0 & Hfree0).
  destruct (Hleast (S (size existing)) 1) as (c & Hc & Hfree & Hused).
  { exists c0. split; [lia | exact Hfree0]. }
  exists c. split; [lia|]. split; [|split; [exact Hfree | exact Hused]].
  unfold get_next_output_path.
  apply next_output_path_from_least; [lia | lia | exact Hfree | exact Hused].
Qed.

Lemma get_next_output_path_is_fresh_witness :
  let existing : gset string :=
    {[ "clip_processed_1.mp4"; "clip_processed_2.mp4"; "clip_processed_4.mp4" ]} in
  ∃ counter,
    1 <= counter <= 1 + Z.of_nat (size existing) ∧
    (get_next_output_path existing 10 "clip_processed"
     = Some (output_name "clip_processed" counter)) ∧
    (output_name "clip_processed" counter ∉ existing) ∧
    ∀ c, 1 <= c < counter -> output_name "clip_processed" c ∈ existing.
Proof.
  intros existing.
  apply (get_next_output_path_is_fresh existing 10 "clip_processed").
  vm_compute. lia.
Defined.

Example third_output_path :
  get_next_output_path
    {[ "clip_processed_1.mp4"; "clip_processed_2.mp4"; "clip_processed_4.mp4" ]}
    10 "clip_processed"
  = Some "clip_processed_3.mp4".
Proof. vm_compute. reflexivity. Qed.

Lemma before_last_dot_dotless (s : string) :
  dotless s = true -> before_last_dot s = None.
Proof.
  induction s as [|c s IH]; [reflexivity|]. cbn [dotless before_last_dot].
  intros H. apply andb_prop in H as [Hc Hs]. rewrite (IH Hs).
  now apply negb_true_iff in Hc as ->.
Qed.

Lemma before_last_dot_app (stem ext : string) :
  dotless ext = true -> before_last_dot (stem +:+ "." +:+ ext) = Some stem.
Proof.
  intros Hext. induction stem as [|c stem IH].
  - rewrite string_app_nil, string_app_cons, string_app_nil.
    cbn [before_last_dot]. now rewrite (before_last_dot_dotless _ Hext).
  - rewrite string_app_cons. cbn [before_last_dot]. now rewrite IH.
Qed.

(** X16. The base path of the output is the path of the video cut at its
    last dot, wherever that dot is, with [_processed] appended: the
    extension is dropped when the file name has one, and a path without
    any dot is kept whole. *)
Theorem base_path_drops_the_extension :
  (∀ stem ext, dotless ext = true ->
     base_path_of (stem +:+ "." +:+ ext) = stem +:+ "_processed") ∧
  (∀ path, dotless path = true -> base_path_of path = path +:+ "_processed").
Proof.
  split.
  - intros stem ext Hext. unfold base_path_of, rsplit_dot_head.
    now rewrite (before_last_dot_app _ _ Hext).
  - intros path Hpath. unfold base_path_of, rsplit_dot_head.
    now rewrite (before_last_dot_dotless _ Hpath).
Qed.

Lemma base_path_drops_the_extension_witness :
  base_path_of "/home/user/clip.final.mov" = "/home/user/clip.final_processed" ∧
  base_path_of "/home/user.name/clip" = "/home/user_processed".
Proof.
  split.
  - apply (proj1 base_path_drops_the_extension "/home/user/clip.final" "mov").
    reflexivity.
  - apply (proj1 base_path_drops_the_extension "/home/user" "name/clip").
    reflexivity.
Defined.

(** X17. The data file is named after the video file: for the output
    path with a given counter it is the same path with [_data.json] in
    place of [.mp4], whatever dots the base path has. *)
Theorem data_path_follows_output_path base_path counter :
  data_path_of (output_name base_path counter)
  = base_path +:+ "_" +:+ pretty.pretty counter +:+ "_data.json".
Proof.
  unfold data_path_of, rsplit_dot_head, output_name.
  change ".mp4" with ("." +:+ "mp4").
  rewrite <- (string_app_assoc "_"), <- (string_app_assoc base_path).
  rewrite before_last_dot_app by reflexivity.
  change (default ?d (Some ?x)) with x.
  rewrite !string_app_assoc. reflexivity.
Qed.

(** ** Runs *)

Lemma frame_loop_turn is_running color save_data total_frames turn settings frame rest r :
  is_running turn = true ->
  frame_loop is_running color save_data total_frames turn ((settings, frame) :: rest) r
  = match process_frame (detector r) (frame_shape frame) (frame_contours frame)
            color settings with
    | None => Raised r
    | Some (detector', processed_frame, frame_data) =>
        match progress_of (frame_count r + 1) total_frames with
        | None =>
            Raised {| detector := detector';
                      written := written r ++ [processed_frame];
                      detection_data :=
                        if save_data then detection_data r ++ [frame_data]
                        else detection_data r;
                      frame_count := frame_count r + 1;
                      progress := progress r |}
        | Some p =>
            frame_loop is_running color save_data total_frames (S turn) rest
              {| detector := detector';
                 written := written r ++ [processed_frame];
                 detection_data :=
                   if save_data then detection_data r ++ [frame_data]
                   else detection_data r;
                 frame_count := frame_count r + 1;
                 progress := progress r ++ [p] |}
        end
    end.
Proof.
  intros Hrun. cbn [frame_loop]. rewrite Hrun.
  destruct (process_frame _ _ _ _ _) as [[[d' o'] fd]|]; reflexivity.
Qed.

Lemma frame_loop_stopped is_running color save_data total_frames turn capture r :
  is_running turn = false ->
  frame_loop is_running color save_data total_frames turn capture r = Finished r.
Proof.
  intros Hrun. destruct capture as [|[settings frame] rest]; [reflexivity|].
  cbn [frame_loop]. now rewrite Hrun.
Qed.

(** X18. However the loop ends, it has counted the frames it wrote: for
    the n frames by which [frame_count] has grown, n frames were written,
    n lists of records were kept if the data is saved and none if it is
    not, and n values of progress were emitted, or n - 1 when the last of
    them raised.  n is at most the number of frames of the capture. *)
Theorem frame_loop_counts is_running color save_data total_frames turn capture r :
  let r' := final (frame_loop is_running color save_data total_frames turn capture r) in
  ∃ n : nat,
    (n <= length capture)%nat ∧
    frame_count r' = frame_count r + Z.of_nat n ∧
    length (written r') = (length (written r) + n)%nat ∧
    length (detection_data r')
      = (length (detection_data r) + if save_data then n else 0)%nat ∧
    (length (progress r') = (length (progress r) + n)%nat ∨
     (S (length (progress r')) = (length (progress r) + n)%nat)).
Proof.
  cbn zeta. revert turn r.
  induction capture as [|[settings frame] rest IH]; intros turn r.
  - exists 0%nat. cbn. repeat split; try lia. destruct save_data; lia.
  - destruct (is_running turn) eqn:Hrun.
    + rewrite (frame_loop_turn _ _ _ _ _ _ _ _ _ Hrun).
      destruct (process_frame _ _ _ _ _) as [[[d' o'] fd]|].
      * destruct (progress_of _ _) as [p|].
        -- destruct (IH (S turn) {|
               detector := d'; written := written r ++ [o'];
               detection_data := if save_data then detection_data r ++ [fd]
                                 else detection_data r;
               frame_count := frame_count r + 1;
               progress := progress r ++ [p] |})
             as (n & Hn & Hcount & Hwritten & Hdata & Hprogress).
           exists (S n). cbn [length]. cbn in Hcount, Hwritten, Hdata, Hprogress.
           rewrite length_app in Hwritten, Hprogress. cbn in Hwritten, Hprogress.
           split; [lia|]. split; [lia|]. split; [lia|]. split; [|lia].
           destruct save_data; [rewrite length_app in Hdata; cbn in Hdata|]; lia.
        -- exists 1%nat. cbn. rewrite length_app. cbn.
           split; [lia|]. split; [lia|]. split; [lia|]. split; [|lia].
           destruct save_data; [rewrite length_app; cbn|]; lia.
      * exists 0%nat. cbn. repeat split; try lia. destruct save_data; lia.
    + rewrite (frame_loop_stopped _ _ _ _ _ _ _ Hrun). exists 0%nat. cbn.
      repeat split; try lia. destruct save_data; lia.
Qed.

(** The records of a frame processed in a state a run can reach. *)
Lemma process_frame_record self settings frame color self' ops' data :
  fixed_points (prev_centers self) ->
  process_frame self (frame_shape frame) (frame_contours frame) color settings
    = Some (self', ops', data) ->
  frame_record (settings, frame) data ∧ fixed_points (prev_centers self').
Proof.
  intros Hfix H. apply process_frame_records in H as (Hall & Hcur & _). split.
  - unfold frame_record. cbn [fst snd].
    eapply Forall2_impl; [|exact Hall]. intros c d (Ha & Hp & Hs & Hd).
    rewrite (motion_fixed_points _ _ Hfix) in Hs, Hd. cbn [fst snd] in Hs, Hd.
    repeat split; [exact Hp | exact Ha | exact Hs |].
    rewrite Hd. case_decide; [now left | now right].
  - rewrite Hcur. apply fixed_points_fold_insert.
Qed.

Lemma frame_loop_records is_running color total_frames turn capture r :
  fixed_points (prev_centers (detector r)) ->
  ∃ (n : nat) (new : list (list Detection)),
    (n <= length capture)%nat ∧
    frame_count (final (frame_loop is_running color true total_frames turn capture r))
      = frame_count r + Z.of_nat n ∧
    detection_data (final (frame_loop is_running color true total_frames turn capture r))
      = detection_data r ++ new ∧
    Forall2 frame_record (take n capture) new ∧
    ((∀ t, is_running t = true) ->
     (∃ r', frame_loop is_running color true total_frames turn capture r = Finished r') ->
     n = length capture).
Proof.
  revert turn r.
  induction capture as [|[settings frame] rest IH]; intros turn r Hfix.
  - exists 0%nat, []. cbn [frame_loop final take length]. rewrite app_nil_r.
    split; [lia|]. split; [lia|]. split; [reflexivity|].
    split; [constructor | reflexivity].
  - destruct (is_running turn) eqn:Hrun.
    + rewrite (frame_loop_turn _ _ _ _ _ _ _ _ _ Hrun).
      destruct (process_frame _ _ _ _ _) as [[[d' o'] fd]|] eqn:Hframe.
      * destruct (process_frame_record _ _ _ _ _ _ _ Hfix Hframe) as [Hrec Hfix'].
        destruct (progress_of _ _) as [p|].
        -- destruct (IH (S turn) {|
               detector := d'; written := written r ++ [o'];
               detection_data := detection_data r ++ [fd];
               frame_count := frame_count r + 1;
               progress := progress r ++ [p] |} Hfix')
             as (n & new & Hn & Hcount & Hdata & Hall & Hlast).
           exists (S n), (fd :: new). cbn [length take].
           cbn in Hcount, Hdata. rewrite Hcount, Hdata, <- app_assoc.
           split; [lia|]. split; [lia|]. split; [reflexivity|].
           split; [now constructor|].
           intros Hall_run Hfin. now rewrite (Hlast Hall_run Hfin).
        -- exists 1%nat, [fd]. cbn [final length take detection_data frame_count].
           split; [lia|]. split; [lia|]. split; [reflexivity|].
           split; [constructor; [exact Hrec | rewrite take_0; constructor]|].
           intros _ [r' Hr']. discriminate.
      * exists 0%nat, []. cbn [final take length]. rewrite app_nil_r.
        split; [lia|]. split; [lia|]. split; [reflexivity|].
        split; [constructor|]. intros _ [r' Hr']. discriminate.
    + rewrite (frame_loop_stopped _ _ _ _ _ _ _ Hrun). exists 0%nat, [].
      cbn [final take length]. rewrite app_nil_r.
      split; [lia|]. split; [lia|]. split; [reflexivity|].
      split; [constructor|]. intros Hall_run. rewrite Hall_run in Hrun. discriminate.
Qed.

(** X19. The data a run saves follows the video frame by frame: however
    the loop ends, the n frames it counted are the first n of the capture,
    and the data holds one list for each of them, in order, with one
    record for each contour the frame retains, carrying its bounding
    rectangle and truncated area, the speed 0.0 and the direction "Up" or
    "N/A"; a run that is never stopped and leaves the loop without an
    exception has done so for every frame of the video. *)
Theorem saved_data_follows_the_frames is_running color total_frames capture self :
  reachable self ->
  let o := frame_loop is_running color true total_frames 0 capture (run_start self) in
  ∃ n : nat,
    (n <= length capture)%nat ∧
    frame_count (final o) = Z.of_nat n ∧
    Forall2 frame_record (take n capture) (detection_data (final o)) ∧
    ((∀ t, is_running t = true) -> (∃ r', o = Finished r') -> n = length capture).
Proof.
  intros Hreach. cbn zeta.
  destruct (frame_loop_records is_running color total_frames 0 capture (run_start self)
              (reachable_fixed_points _ Hreach))
    as (n & new & Hn & Hcount & Hdata & Hall & Hlast).
  exists n. rewrite Hcount, Hdata. cbn [run_start frame_count detection_data app].
  split; [exact Hn|]. split; [lia|]. split; [exact Hall | exact Hlast].
Qed.

Lemma saved_data_follows_the_frames_witness :
  let capture := [(default_settings, frame_of [contour_800; contour_200]);
                  (default_settings, frame_of []);
                  (default_settings, frame_of [contour_800])] in
  let o := frame_loop never_stopped (0, 0, 0) true 3 0 capture (run_start init) in
  ∃ n : nat,
    (n <= length capture)%nat ∧
    frame_count (final o) = Z.of_nat n ∧
    Forall2 frame_record (take n capture) (detection_data (final o)) ∧
    ((∀ t, never_stopped t = true) -> (∃ r', o = Finished r') -> n = length capture).
Proof.
  intros capture.
  exact (saved_data_follows_the_frames never_stopped (0, 0, 0) 3 capture init
           reachable_init).
Defined.

(** The run of the witness finishes, with three lists of records. *)
Example three_frames_saved :
  let capture := [(default_settings, frame_of [contour_800; contour_200]);
                  (default_settings, frame_of []);
                  (default_settings, frame_of [contour_800])] in
  match frame_loop never_stopped (0, 0, 0) true 3 0 capture (run_start init) with
  | Finished r =>
      frame_count r = 3 ∧ progress r = [33; 66; 100] ∧
      (fun data : list Detection => det_direction <$> data) <$> detection_data r = [["N/A"]; []; ["N/A"]]
  | Raised _ => False
  end.
Proof. vm_compute. repeat split. Qed.

(** X20. Stopping the run cuts the video: if the flag is first found
    cleared at the head of turn k, the outcome is that of a run, never
    stopped, over the first k frames alone; no later frame is processed,
    written or recorded. *)
Theorem stopped_run_is_a_shorter_run
    is_running color save_data total_frames (k : nat) capture r :
  (∀ t : nat, (t < k)%nat -> is_running t = true) ->
  is_running k = false ->
  frame_loop is_running color save_data total_frames 0 capture r
  = frame_loop never_stopped color save_data total_frames 0 (take k capture) r.
Proof.
  intros Hbefore Hstop.
  assert (Hgen : ∀ (j : nat) capture turn r,
            (turn + j = k)%nat ->
            frame_loop is_running color save_data total_frames turn capture r
            = frame_loop never_stopped color save_data total_frames turn
                (take j capture) r).
  { clear r capture. induction j as [|j IH]; intros capture turn r Hk.
    - rewrite take_0. cbn [frame_loop]. apply frame_loop_stopped.
      now replace turn with k by lia.
    - destruct capture as [|[settings frame] rest]; [reflexivity|].
      cbn [take]. rewrite !frame_loop_turn by (reflexivity || (apply Hbefore; lia)).
      destruct (process_frame _ _ _ _ _) as [[[d' o'] fd]|]; [|reflexivity].
      destruct (progress_of _ _) as [p|]; [|reflexivity].
      apply IH. lia. }
  now apply Hgen.
Qed.

Lemma stopped_run_is_a_shorter_run_witness :
  let capture := [(default_settings, frame_of [contour_800]);
                  (default_settings, frame_of [contour_200]);
                  (default_settings, frame_of [contour_800])] in
  frame_loop (fun t => (t <? 2)%nat) (0, 0, 0) true 3 0 capture (run_start init)
  = frame_loop never_stopped (0, 0, 0) true 3 0 (take 2 capture) (run_start init).
Proof.
  intros capture.
  apply (stopped_run_is_a_shorter_run (fun t => (t <? 2)%nat) (0, 0, 0) true 3 2
           capture (run_start init)).
  - intros t Ht. apply Nat.ltb_lt. exact Ht.
  - reflexivity.
Defined.

(** X21. A video whose frame count is reported as 0 is not processed
    beyond its first frame: the division for the progress raises.  No
    progress is ever emitted; if a frame is read at all and processed,
    it is written, and recorded if the data is saved, before the run
    fails, and the detector has moved on to it. *)
Theorem run_without_frame_count is_running color save_data turn capture r :
  match frame_loop is_running color save_data 0 turn capture r with
  | Finished r' => r' = r ∧ (capture = [] ∨ is_running turn = false)
  | Raised r' =>
      progress r' = progress r ∧
      (r' = r ∨
       ∃ settings frame rest self' ops' data,
         capture = (settings, frame) :: rest ∧
         process_frame (detector r) (frame_shape frame) (frame_contours frame)
           color settings = Some (self', ops', data) ∧
         detector r' = self' ∧
         written r' = written r ++ [ops'] ∧
         detection_data r'
           = (if save_data then detection_data r ++ [data] else detection_data r) ∧
         frame_count r' = frame_count r + 1)
  end.
Proof.
  destruct capture as [|[settings frame] rest]; [cbn; auto|].
  destruct (is_running turn) eqn:Hrun.
  - rewrite (frame_loop_turn _ _ _ _ _ _ _ _ _ Hrun).
    destruct (process_frame _ _ _ _ _) as [[[d' o'] fd]|] eqn:Hframe; [|cbn; auto].
    change (progress_of (frame_count r + 1) 0) with (@None Z). cbn beta iota.
    split; [reflexivity|]. right.
    exists settings, frame, rest, d', o', fd. repeat split. exact Hframe.
  - rewrite (frame_loop_stopped _ _ _ _ _ _ _ Hrun). auto.
Qed.

(** After a run that was never stopped and finished, the detector holds
    the centres of the last frame of the video. *)
Lemma frame_loop_last_frame color save_data total_frames turn capture settings frame r r' :
  frame_loop never_stopped color save_data total_frames turn
    (capture ++ [(settings, frame)]) r = Finished r' ->
  prev_centers (detector r')
  = fold_left (fun m k => <[k := k]> m) (centers settings (frame_contours frame)) ∅.
Proof.
  revert turn r. induction capture as [|[settings1 frame1] rest IH]; intros turn r;
    cbn [app]; rewrite frame_loop_turn by reflexivity.
  - destruct (process_frame _ _ _ _ _) as [[[d' o'] fd]|] eqn:Hframe; [|discriminate].
    destruct (progress_of _ _) as [p|]; [|discriminate].
    cbn [frame_loop]. intros [= <-]. cbn [detector].
    now apply process_frame_records in Hframe as (_ & Hcur & _).
  - destruct (process_frame _ _ _ _ _) as [[[d' o'] fd]|]; [|discriminate].
    destruct (progress_of _ _) as [p|]; [|discriminate].
    apply IH.
Qed.

(** X22. The detector outlives the video.  After a run that finished
    without being stopped, the first frame of the next video is matched
    against the last frame of the video before: a contour is recorded
    with the direction "Up" when its centre was a centre in that last
    frame, and with "N/A" otherwise, in both cases with speed 0.0. *)
Theorem next_video_is_matched_with_the_last_frame
    color save_data total_frames capture settings0 frame0 self
    shape contours color' settings self' ops' data :
  let previous :=
    frame_loop never_stopped color save_data total_frames 0
      (capture ++ [(settings0, frame0)]) (run_start self) in
  (∃ r, previous = Finished r) ->
  process_frame (detector (process_video previous)) shape contours color' settings
    = Some (self', ops', data) ->
  Forall2
    (fun contour d =>
       det_speed d = 0%float ∧
       det_direction d =
         if decide (center_of contour ∈ centers settings0 (frame_contours frame0))
         then "Up" else "N/A")
    (List.filter (retained settings) contours) data.
Proof.
  cbn zeta. intros [r Hprev] H. rewrite Hprev in H.
  cbn [process_video final run_start detector] in H.
  pose proof (frame_loop_last_frame _ _ _ _ _ _ _ _ _ Hprev) as Hlast.
  assert (Hfix : fixed_points (prev_centers (detector r)))
    by (rewrite Hlast; apply fixed_points_fold_insert).
  apply process_frame_records in H as (Hall & _ & _).
  eapply Forall2_impl; [|exact Hall]. intros c d (_ & _ & Hs & Hd).
  rewrite (motion_fixed_points _ _ Hfix) in Hs, Hd. cbn [fst snd] in Hs, Hd.
  split; [exact Hs|]. rewrite Hd, Hlast, lookup_fold_insert, lookup_empty.
  destruct (decide (center_of c ∈ centers settings0 (frame_contours frame0)));
    [rewrite decide_True by (eexists; reflexivity)
    |rewrite decide_False by (intros [? ?]; discriminate)]; reflexivity.
Qed.

Lemma next_video_is_matched_with_the_last_frame_witness :
  let previous :=
    frame_loop never_stopped (0, 0, 0) false 2 0
      ([(default_settings, frame_of [])] ++ [(default_settings, frame_of [contour_800])])
      (run_start init) in
  ∃ self' ops' data,
    process_frame (detector (process_video previous)) (480, 640)
      [contour_800; contour_200] (0, 0, 0) default_settings
      = Some (self', ops', data) ∧
    det_direction <$> data = ["Up"].
Proof.
  intros previous.
  destruct (process_frame (detector (process_video previous)) (480, 640)
              [contour_800; contour_200] (0, 0, 0) default_settings)
    as [[[self' ops'] data]|] eqn:H; [|vm_compute in H; discriminate].
  exists self', ops', data. split; [reflexivity|].
  pose proof (next_video_is_matched_with_the_last_frame
                (0, 0, 0) false 2 [(default_settings, frame_of [])]
                default_settings (frame_of [contour_800]) init
                (480, 640) [contour_800; contour_200] (0, 0, 0) default_settings
                self' ops' data) as Hnext.
  cbn zeta in Hnext.
  assert (Hfin : ∃ r,
            frame_loop never_stopped (0, 0, 0) false 2 0
              ([(default_settings, frame_of [])] ++
               [(default_settings, frame_of [contour_800])]) (run_start init)
            = Finished r).
  { destruct (frame_loop never_stopped (0, 0, 0) false 2 0
                ([(default_settings, frame_of [])] ++
                 [(default_settings, frame_of [contour_800])]) (run_start init))
      as [r|r] eqn:Hloop; [now exists r | vm_compute in Hloop; discriminate]. }
  specialize (Hnext Hfin H).
  change (List.filter (retained default_settings) [contour_800; contour_200])
    with [contour_800] in Hnext.
  inversion Hnext as [|c d cs ds [_ Hd] Hnil]; subst.
  inversion Hnil; subst. cbn [fmap list_fmap]. rewrite Hd. reflexivity.
Defined.
